(** * opensoundscape.audio: the [Audio] container

    A shallow embedding of [src/opensoundscape/audio.py], followed by the
    command-line script [src/bmooreii-Lasseck2013/openbird.py].

    - The cutoff frequencies of [bandpass], which are only compared, are
      embedded by the rational they denote, in [Q]; the comparisons are then
      the exact comparisons Python performs.
    - The times of [trim], which are multiplied and truncated, are Python
      ints or IEEE binary64 floats ([pynum]): the product is the machine
      product, and [int(...)] raises on an infinity or a NaN as the
      interpreter does.
    - An [Audio] object lives in a store of objects addressed by identity;
      methods receive [self] as an address and run in a state-and-exception
      monad over the store, the file system and standard output.
    - The third-party libraries the module calls (librosa, soundfile, scipy)
      and the sibling module [opensoundscape.audio_tools] are collected in
      the class [Libs]; every theorem holds for all of them. *)

From Stdlib Require Import ZArith QArith Qabs String Ascii List Lia.
From Stdlib Require Import PrimFloat SpecFloat.
From Stdlib Require FloatOps.
From stdpp Require Import gmap strings list pretty.

Local Open Scope string_scope.
Local Open Scope Z_scope.

(** ** Exceptions *)

Inductive exn : Type :=
| OpsoLoadAudioInputError (cls : string)   (* audio.py:12 *)
| OpsoLoadAudioInputTooLong (path : string) (* audio.py:19 *)
| FileNotFoundError (path : string)
| AttributeError (name : string)
| ValueError (msg : string)
| ZeroDivisionError
| OverflowError (msg : string)
| LibraryError (origin : string).          (* raised inside a library call *)

Inductive res (A : Type) : Type :=
| Ok (a : A)
| Raise (e : exn).
Arguments Ok {A} a.
Arguments Raise {A} e.

Definition is_ok {A} (r : res A) : bool :=
  match r with Ok _ => true | Raise _ => false end.

(** The outcome of a call into a library: a value, or an exception raised
    inside the library, which audio.py never catches. *)
Inductive lres (A : Type) : Type :=
| LOk (a : A)
| LFail (origin : string).
Arguments LOk {A} a.
Arguments LFail {A} origin.

Definition propagate {A} (r : lres A) : res A :=
  match r with LOk a => Ok a | LFail o => Raise (LibraryError o) end.

(** ** Objects and the world *)

(** The two slots of audio.py:30.  [samples] is a one-dimensional array. *)
Record Audio : Type := mkAudio { samples : list Q; sample_rate : Z }.

Record world : Type := mkWorld {
  heap : gmap positive Audio;     (* objects whose [__init__] has returned *)
  files : gmap string string;     (* regular files: path to contents *)
  stdout : list string            (* lines printed so far *)
}.

Definition set_heap (h : gmap positive Audio) (w : world) : world :=
  {| heap := h; files := files w; stdout := stdout w |}.
Definition set_files (f : gmap string string) (w : world) : world :=
  {| heap := heap w; files := f; stdout := stdout w |}.

(** ** The monad of method bodies *)

Definition M (A : Type) : Type := world -> res A * world.

Definition ret {A} (a : A) : M A := fun w => (Ok a, w).
Definition raise {A} (e : exn) : M A := fun w => (Raise e, w).
Definition bind {A B} (m : M A) (k : A -> M B) : M B :=
  fun w => match m w with
           | (Ok a, w') => k a w'
           | (Raise e, w') => (Raise e, w')
           end.
Definition lift {A} (r : lres A) : M A := fun w => (propagate r, w).

Declare Scope py_scope.
Delimit Scope py_scope with py.
Notation "x <- m ;; k" := (bind m (fun x => k))
  (at level 100, m at next level, right associativity) : py_scope.
Notation "m ;;; k" := (bind m (fun _ => k))
  (at level 100, right associativity) : py_scope.
Local Open Scope py_scope.

Definition get_obj (self : positive) : M Audio :=
  fun w => match heap w !! self with
           | Some au => (Ok au, w)
           | None => (Raise (AttributeError "samples"), w)
           end.

(** [object.__new__] followed by the two [object.__setattr__] calls of
    audio.py:97-98: the object becomes visible with both slots stored. *)
Definition alloc (au : Audio) : M positive :=
  fun w => let l := fresh (dom (heap w)) in
           (Ok l, set_heap (<[l := au]> (heap w)) w).

Definition print (line : string) : M unit :=
  fun w => (Ok tt, {| heap := heap w; files := files w;
                      stdout := stdout w ++ [line] |}).

(** ** Python primitives *)

(** [int(x)] truncates toward zero. *)
Definition int (x : Q) : Z := Z.quot (Qnum x) (Z.pos (Qden x)).

(** One bound of a slice over a sequence of length [n]: a negative index
    counts from the end, and the result is clipped to [0, n]. *)
Definition slice_index (n i : Z) : Z :=
  if i <? 0 then Z.max (i + n) 0 else Z.min i n.

(** [xs[start:stop]] *)
Definition slice {A} (xs : list A) (start stop : Z) : list A :=
  let n := Z.of_nat (length xs) in
  let lo := slice_index n start in
  let hi := slice_index n stop in
  take (Z.to_nat (hi - lo)) (drop (Z.to_nat lo) xs).

(** [s.split(sep)] for a one-character separator. *)
Fixpoint split (sep : ascii) (s : string) : list string :=
  match s with
  | EmptyString => [EmptyString]
  | String c s' =>
      if Ascii.eqb c sep then EmptyString :: split sep s'
      else match split sep s' with
           | [] => [String c EmptyString]
           | t :: ts => String c t :: ts
           end
  end.

(** [xs[-1]] on a list of strings ([split] never returns the empty list). *)
Definition last_item (xs : list string) : string := List.last xs EmptyString.

(** *** Numbers given as times *)

(** A Python [int] or [float]. *)
Inductive pynum : Type :=
| PyInt (z : Z)
| PyFloat (f : float).

(** [float(z)], as the interpreter converts the int operand of a mixed
    product: rounded to the nearest double, ties to even; an int beyond
    the range of doubles raises. *)
Definition float_of_int (z : Z) : res float :=
  match binary_normalize FloatOps.prec FloatOps.emax z 0 false with
  | S754_infinity _ => Raise (OverflowError "int too large to convert to float")
  | sf => Ok (FloatOps.SF2Prim sf)
  end.

(** [x * n] for an int [n]: exact on ints, the IEEE product on floats. *)
Definition mul_int (x : pynum) (n : Z) : res pynum :=
  match x with
  | PyInt z => Ok (PyInt (z * n))
  | PyFloat f =>
      match float_of_int n with
      | Ok fn => Ok (PyFloat (f * fn)%float)
      | Raise e => Raise e
      end
  end.

(** [int(x)]: the identity on ints; on floats truncation toward zero, and
    an exception for infinities and NaN. *)
Definition int_of (x : pynum) : res Z :=
  match x with
  | PyInt z => Ok z
  | PyFloat f =>
      match FloatOps.Prim2SF f with
      | S754_nan => Raise (ValueError "cannot convert float NaN to integer")
      | S754_infinity _ =>
          Raise (OverflowError "cannot convert float infinity to integer")
      | S754_zero _ => Ok 0
      | S754_finite s m e =>
          let v := Z.shiftl (Z.pos m) e in Ok (if s then - v else v)
      end
  end.

(** [int(time * sample_rate)], audio.py:117-118. *)
Definition sample_index (time : pynum) (sample_rate : Z) : res Z :=
  match mul_int time sample_rate with
  | Ok x => int_of x
  | Raise e => Raise e
  end.

(** ** Collaborators *)

(** What [soundfile.read] and [librosa.resample] hand back: one channel or
    several. *)
Inductive ndarray : Type :=
| Arr1 (xs : list Q)
| Arr2 (channels : list (list Q)).

Definition ndim (a : ndarray) : Z :=
  match a with Arr1 _ => 1 | Arr2 _ => 2 end.

(** The functions audio.py imports.  Each may raise; none touches the
    object store.  Those that read the file system receive it. *)
Class Libs : Type := {
  (* librosa.get_duration(filename=...) *)
  get_duration : gmap string string -> string -> lres Q;
  (* librosa.load(path, sr=..., res_type=..., mono=True)[0] *)
  load : gmap string string -> string -> Z -> string -> lres (list Q);
  (* soundfile.read(stream) *)
  soundfile_read : string -> lres (ndarray * Z);
  (* librosa.resample(y, orig_sr, target_sr, res_type=...) *)
  resample : ndarray -> Z -> Z -> string -> lres ndarray;
  (* librosa.to_mono(y) *)
  to_mono : list (list Q) -> lres (list Q);
  (* opensoundscape.audio_tools.bandpass_filter(x, low, high, sr, order=...) *)
  bandpass_filter : list Q -> Q -> Q -> Z -> Z -> lres (list Q);
  (* scipy.fftpack.fft, scipy.fft.fftfreq, and numpy's arithmetic on the
     complex array fft returns *)
  complex : Type;
  fft : list Q -> lres (list complex);
  fftfreq : nat -> Q -> lres (list Q);
  cscale : Q -> complex -> complex;
  cabs : complex -> Q;
  (* scipy.io.wavfile.write(path, rate, data) *)
  write_wav : string -> Z -> list Q -> gmap string string ->
              lres unit * gmap string string
}.

(** ** The class [Audio] *)

(** What the first argument of [Audio(...)] can be (audio.py:54-69). *)
Inductive source : Type :=
| Str (s : string)            (* str or numpy.str_ *)
| PathObj (p : string)        (* a pathlib.Path: a concrete path *)
| PurePathObj (p : string)    (* a pathlib.PurePath that is not a Path *)
| Stream (content : string)   (* an io.BufferedIOBase *)
| Ndarray (a : list Q)        (* numpy.ndarray *)
| Other (cls : string).       (* any other class *)


Section Audio.
Context `{L : Libs}.

Definition is_file (p : string) : M bool :=
  fun w => (Ok (bool_decide (is_Some (files w !! p))), w).

(** audio.py:71-84, the branch [if path:].  A path object is always
    true, so the branch is taken whenever [path] was set. *)
Definition from_path (path : string) (sample_rate : Z)
    (max_duration : option Q) (resample_type : string) : M (list Q) :=
  isf <- is_file path ;;
  if negb isf then raise (FileNotFoundError path) else
  too_long <- match max_duration with
              | None => ret false
              | Some m =>
                  d <- (fun w => (propagate (get_duration (files w) path), w)) ;;
                  ret (negb (Qle_bool d m))
              end ;;
  if (too_long : bool) then raise (OpsoLoadAudioInputTooLong path) else
  (fun w => (propagate (load (files w) path sample_rate resample_type), w)).

(** audio.py:89-95, the final [else:] branch. *)
Definition from_stream (content : string) (sample_rate : Z)
    (resample_type : string) : M (list Q) :=
  r <- lift (soundfile_read content) ;;
  let '(input_samples, input_sample_rate) := r in
  samples <- lift (resample input_samples input_sample_rate
                     sample_rate resample_type) ;;
  match samples with
  | Arr2 channels => lift (to_mono channels)
  | Arr1 xs => ret xs
  end.

(** audio.py:33-95, the part of [__init__] that computes [samples]: the
    dispatch on the class of [audio] sets [path] and [from_samples], which
    select one of three loaders.  A pure path passes the test of
    audio.py:57 and is true at audio.py:71, but has no method [is_file]:
    the call at audio.py:72 raises [AttributeError]. *)
Definition init_samples (audio : source) (sample_rate : Z)
    (max_duration : option Q) (resample_type : string) : M (list Q) :=
  match audio with
  | Str s => from_path s sample_rate max_duration resample_type
  | PathObj p => from_path p sample_rate max_duration resample_type
  | PurePathObj p => raise (AttributeError "is_file")
  | Stream content =>
      print "BytesIO object" ;;;
      from_stream content sample_rate resample_type
  | Ndarray a => ret a
  | Other cls => raise (OpsoLoadAudioInputError cls)
  end.

(** The call [Audio(audio, sample_rate, max_duration, resample_type)]. *)
Definition Audio_new (audio : source) (sample_rate : Z)
    (max_duration : option Q) (resample_type : string) : M positive :=
  samples <- init_samples audio sample_rate max_duration resample_type ;;
  alloc {| samples := samples; sample_rate := sample_rate |}.

(** The defaults of audio.py:34, used when a method builds its result. *)
Definition Audio_of_samples (a : list Q) (sample_rate : Z) : M positive :=
  Audio_new (Ndarray a) sample_rate None "kaiser_fast".


(** audio.py:108-120 *)
Definition trim (self : positive) (start_time end_time : pynum) : M positive :=
  au <- get_obj self ;;
  start_sample <- (fun w => (sample_index start_time (sample_rate au), w)) ;;
  end_sample <- (fun w => (sample_index end_time (sample_rate au), w)) ;;
  let samples_trimmed := slice (samples au) start_sample end_sample in
  Audio_of_samples samples_trimmed (sample_rate au).

(** audio.py:122-144 *)
Definition bandpass (self : positive) (low_f high_f : Q) (order : Z) : M positive :=
  au <- get_obj self ;;
  if Qle_bool low_f 0 then
    raise (ValueError "low_f must be greater than zero")
  else if Qle_bool (inject_Z (sample_rate au) / 2) high_f then
    raise (ValueError "high_f must be less than sample_rate/2")
  else
    filtered_samples <- lift (bandpass_filter (samples au) low_f high_f
                                (sample_rate au) 9) ;;
    Audio_of_samples filtered_samples (sample_rate au).

(** audio.py:147-170 *)
Definition spectrum (self : positive) : M (list Q * list Q) :=
  au <- get_obj self ;;
  let N := length (samples au) in
  T <- (if sample_rate au =? 0 then raise ZeroDivisionError
        else ret (1 / inject_Z (sample_rate au))%Q) ;;
  f <- lift (fft (samples au)) ;;
  freq <- lift (fftfreq N T) ;;
  scale <- (if (N =? 0)%nat then raise ZeroDivisionError
            else ret (2 / inject_Z (Z.of_nat N))%Q) ;;
  let half := int (inject_Z (Z.of_nat N) / 2) in
  let f := map (cscale scale) (slice f 0 half) in
  let frequencies := slice freq 0 half in
  let f := map cabs f in
  ret (f, frequencies).

(** audio.py:172-184 *)
Definition save (self : positive) (path : string) : M unit :=
  if negb (String.eqb (last_item (split "." path)) "wav") then
    raise (ValueError "file extension must be .wav")
  else
    au <- get_obj self ;;
    (fun w => let '(r, f) := write_wav path (sample_rate au) (samples au)
                               (files w) in
              (propagate r, set_files f w)).

End Audio.

(** ** Test doubles

    A toy codec for the examples below: every byte of a file is one sample
    at 1 Hz, the filter is the identity, and the transform is the exact
    DFT of inputs of length one and two (where it is real). *)
Module Demo.

Definition byte_samples (content : string) : list Q :=
  map (fun c => inject_Z (Z.of_nat (nat_of_ascii c))) (list_ascii_of_string content).

Definition demo_fft (xs : list Q) : lres (list Q) :=
  match xs with
  | [x] => LOk [x]
  | [x0; x1] => LOk [(x0 + x1)%Q; (x0 - x1)%Q]
  | _ => LFail "scipy.fftpack.fft"
  end.

(** [fftfreq(n, d)]: the bins [0, 1, .., (n-1)//2, -(n//2), .., -1] over
    [n * d]. *)
Definition demo_fftfreq (n : nat) (d : Q) : lres (list Q) :=
  if (n =? 0)%nat then LFail "scipy.fft.fftfreq"
  else
    let pos := map Z.of_nat (seq 0 (S ((n - 1) / 2))) in
    let neg := map (fun k => Z.of_nat k - Z.of_nat (n / 2)) (seq 0 (n / 2)) in
    LOk (map (fun k => (inject_Z k / (inject_Z (Z.of_nat n) * d))%Q) (pos ++ neg)).

Definition demo_libs : Libs := {|
  get_duration := fun fs p =>
    match fs !! p with
    | Some c => LOk (inject_Z (Z.of_nat (String.length c)))
    | None => LFail "librosa.get_duration"
    end;
  load := fun fs p _ _ =>
    match fs !! p with
    | Some c => LOk (byte_samples c)
    | None => LFail "librosa.load"
    end;
  soundfile_read := fun content => LOk (Arr1 (byte_samples content), 1);
  resample := fun a _ _ _ => LOk a;
  to_mono := fun chans => LOk (List.hd [] chans);
  bandpass_filter := fun xs _ _ _ _ => LOk xs;
  complex := Q;
  fft := demo_fft;
  fftfreq := demo_fftfreq;
  cscale := Qmult;
  cabs := Qabs;
  write_wav := fun p _ _ fs => (LOk tt, <[p := "RIFF"]> fs)
|}.

Definition ten : list Q := map inject_Z [0; 1; 2; 3; 4; 5; 6; 7; 8; 9].

(** One ten-sample recording at 1 Hz, one two-sample recording at 8 Hz and
    an empty one; a three-byte file on disk. *)
Definition w0 : world :=
  {| heap := <[1%positive := mkAudio ten 1]>
               (<[2%positive := mkAudio [1%Q; 3%Q] 8]>
                  (<[3%positive := mkAudio [] 22050]> ∅));
     files := <["clip.wav" := "abc"]> ∅;
     stdout := [] |}.

Definition empty_world : world := {| heap := ∅; files := ∅; stdout := [] |}.

End Demo.

(** ** How a method may change the object store *)


(** The length of the samples held by the object a call returned. *)
Definition result_length (r : res positive * world) : option nat :=
  match r with
  | (Ok l, w') => (fun au => length (samples au)) <$> heap w' !! l
  | (Raise _, _) => None
  end.

(** The length the specification gives for [trim], in its words: the
    difference of the two sample indices, clamped to [0, n]. *)
Definition claimed_trim_length (n start_sample end_sample : Z) : Z :=
  Z.max 0 (Z.min n (end_sample - start_sample)).

(** [s.endswith(suffix)] *)
Fixpoint endswith (s suffix : string) : bool :=
  if String.eqb s suffix then true
  else match s with
       | EmptyString => false
       | String _ s' => endswith s' suffix
       end.

(** [sep.join(parts)], the inverse of [split]. *)
Fixpoint join (sep : ascii) (parts : list string) : string :=
  match parts with
  | [] => EmptyString
  | [t] => t
  | t :: rest => t +:+ String sep (join sep rest)
  end.

(** ** [Audio.__repr__] *)

(** audio.py:105-106.  The shape of a one-dimensional array of [n]
    samples prints as [(n,)]; integers print in decimal. *)
Definition __repr__ (self : positive) : M string :=
  au <- get_obj self ;;
  ret ("<Audio(samples=(" +:+ pretty (length (samples au)) +:+ ",), sample_rate="
       +:+ pretty (sample_rate au) +:+ ")>").

(** [c in s] *)
Fixpoint occurs (c : ascii) (s : string) : bool :=
  match s with
  | EmptyString => false
  | String c' s' => Ascii.eqb c' c || occurs c s'
  end.

(** ** openbird.py *)

(** [os.path.join(a, b)] on a POSIX system. *)
Definition path_join (a b : string) : string :=
  match b with
  | String "/" _ => b
  | _ => match a with
         | EmptyString => b
         | _ => if endswith a "/" then a +:+ b else a +:+ "/" +:+ b
         end
  end.

(** The command line as [docopt] returns it (openbird.py:70). *)
Record arguments : Type := mkArguments {
  arg_ini : string;             (* arguments['--ini'] *)
  arg_label : option string;    (* arguments['<label>'] *)
  arg_image : option string;    (* arguments['<image>'] *)
  arg_segments : bool;          (* arguments['--segments'] *)
  arg_sampling : bool;
  arg_spect_gen : bool;
  arg_view : bool;
  arg_model_fit : bool;
  arg_predict : bool
}.

(** What openbird.py imports: [configparser], the directory of the script,
    and the pipeline stages of the package [modules]. *)
Class Bird : Type := {
  (* dirname(abspath(__file__)) *)
  openbird_dir : string;
  config : Type;
  section : Type;
  (* ConfigParser() *)
  ConfigParser : config;
  (* config.read(filename) *)
  config_read : config -> gmap string string -> string -> lres config;
  (* config[section] *)
  config_getitem : config -> string -> lres section;
  spect_gen : section -> M unit;
  view : option string -> string -> bool -> section -> M unit;
  model_fit : section -> M unit;
  predict : section -> M unit
}.

Section Openbird.
Context `{B : Bird}.

(** [os.path.isfile] *)
Definition isfile (p : string) : M bool :=
  fun w => (Ok (bool_decide (is_Some (files w !! p))), w).

(** openbird.py:24-54.  [FileNotFoundError] carries the path its message
    names. *)
Definition generate_config (f_default f_override section_name : string)
    : M section :=
  let f_default := path_join openbird_dir f_default in
  let f_override := path_join openbird_dir f_override in
  ok_default <- isfile f_default ;;
  if negb ok_default then raise (FileNotFoundError f_default) else
  ok_override <- isfile f_override ;;
  if negb ok_override then raise (FileNotFoundError f_override) else
  let config := ConfigParser in
  config <- (fun w => (propagate (config_read config (files w) f_default), w)) ;;
  config <- (fun w => (propagate (config_read config (files w) f_override), w)) ;;
  lift (config_getitem config section_name).

(** openbird.py:69-99, the body of the script after [docopt]. *)
Definition main (arguments : arguments) : M unit :=
  defaults <- generate_config "config/openbird.ini" (arg_ini arguments)
                "default" ;;
  let image := match arg_image arguments with
               | Some (String c s) => String c s
               | _ => EmptyString
               end in
  if arg_sampling arguments then print "sampling"
  else if arg_spect_gen arguments then spect_gen defaults
  else if arg_view arguments then
    view (arg_label arguments) image (arg_segments arguments) defaults
  else if arg_model_fit arguments then model_fit defaults
  else if arg_predict arguments then predict defaults
  else ret tt.

End Openbird.

(** Test doubles for openbird.py: a configuration is the list of files
    read so far, a section is its name with that list, and every stage
    prints its name. *)
Module DemoBird.

Definition demo_bird : Bird := {|
  openbird_dir := "/opt/openbird";
  config := list string;
  section := string * list string;
  ConfigParser := [];
  config_read := fun c fs p =>
    match fs !! p with
    | Some _ => LOk (c ++ [p])%list
    | None => LOk c
    end;
  config_getitem := fun c name =>
    if String.eqb name "default" then LOk (name, c) else LFail "KeyError";
  spect_gen := fun _ => print "spect_gen";
  view := fun _ image _ _ => print ("view " +:+ image);
  model_fit := fun _ => print "model_fit";
  predict := fun _ => print "predict"
|}.

Definition bird_world : world :=
  {| heap := ∅;
     files := <["/opt/openbird/config/openbird.ini" := "[default]"]>
                (<["/opt/openbird/openbird.ini" := "[default]"]>
                   (<["/etc/bird.ini" := "[default]"]> ∅));
     stdout := [] |}.

Definition view_args : arguments :=
  {| arg_ini := "openbird.ini"; arg_label := Some "robin"; arg_image := None;
     arg_segments := false; arg_sampling := false; arg_spect_gen := false;
     arg_view := true; arg_model_fit := false; arg_predict := false |}.

(** Two more object stores: a one-sample recording, and a two-sample
    recording at 8 Hz under another address. *)
Definition w_single : world :=
  {| heap := <[1%positive := mkAudio [7%Q] 4]> ∅; files := ∅; stdout := [] |}.

(** Ten samples at 10 Hz. *)
Definition w_ten_hz : world :=
  {| heap := <[1%positive := mkAudio Demo.ten 10]> ∅; files := ∅;
     stdout := [] |}.

(** The doubles nearest to 0.7 and to 1e308. *)
Definition f0_7 : float := 0x1.6666666666666p-1%float.
Definition f1e308 : float := 0x1.1ccf385ebc8ap+1023%float.

Definition w_pair : world :=
  {| heap := <[5%positive := mkAudio [5%Q; 9%Q] 8]> ∅; files := ∅;
     stdout := [] |}.

End DemoBird.

(** * Properties *)

Section Properties.
Context `{L : Libs}.

Lemma alloc_new_instance (au : Audio) (w : world) :
  exists l, alloc au w = (Ok l, set_heap (<[l := au]> (heap w)) w)
            /\ heap w !! l = None.
Proof.
  exists (fresh (dom (heap w))). split; [reflexivity|].
  apply not_elem_of_dom, is_fresh.
Qed.

Lemma Audio_of_samples_alloc (a : list Q) (r : Z) (w : world) :
  Audio_of_samples a r w = alloc (mkAudio a r) w.
Proof. reflexivity. Qed.


Lemma get_obj_found (self : positive) (au : Audio) (w : world) :
  heap w !! self = Some au -> get_obj self w = (Ok au, w).
Proof. intros H. unfold get_obj. by rewrite H. Qed.

Lemma sample_index_int (z r : Z) : sample_index (PyInt z) r = Ok (z * r).
Proof. reflexivity. Qed.

(** The only exceptions of [int(time * sample_rate)]. *)
Lemma sample_index_errors (t : pynum) (r : Z) (e : exn) :
  sample_index t r = Raise e ->
  (exists msg, e = OverflowError msg)
  \/ e = ValueError "cannot convert float NaN to integer".
Proof.
  unfold sample_index, mul_int, int_of, float_of_int.
  destruct t as [z|f]; [discriminate|].
  destruct (binary_normalize _ _ _ _ _); cbn;
    try destruct (FloatOps.Prim2SF _); intros [= <-]; eauto.
Qed.

Lemma trim_unfold (self : positive) (au : Audio) (a b : pynum) (S E : Z)
    (w : world) :
  heap w !! self = Some au ->
  sample_index a (sample_rate au) = Ok S ->
  sample_index b (sample_rate au) = Ok E ->
  trim self a b w =
  alloc (mkAudio (slice (samples au) S E) (sample_rate au)) w.
Proof.
  intros H HS HE. unfold trim, bind. rewrite (get_obj_found _ _ _ H).
  by rewrite HS, HE.
Qed.

Lemma trim_raises (self : positive) (au : Audio) (a b : pynum) (e : exn)
    (w : world) :
  heap w !! self = Some au ->
  sample_index a (sample_rate au) = Raise e
  \/ (is_ok (sample_index a (sample_rate au)) = true
      /\ sample_index b (sample_rate au) = Raise e) ->
  trim self a b w = (Raise e, w).
Proof.
  intros H Hidx. unfold trim, bind. rewrite (get_obj_found _ _ _ H).
  destruct Hidx as [->|[Hok ->]]; [reflexivity|].
  by destruct (sample_index a (sample_rate au)).
Qed.


Lemma Qle_bool_false_lt (x y : Q) : Qle_bool x y = false <-> (y < x)%Q.
Proof.
  split.
  - intros H. apply Qnot_le_lt. intros Hle.
    apply Qle_bool_iff in Hle. congruence.
  - intros H. destruct (Qle_bool x y) eqn:E; [|reflexivity].
    apply Qle_bool_iff in E. exfalso. revert E. by apply Qlt_not_le.
Qed.



Lemma bandpass_in_range (self : positive) (au : Audio) (low high : Q) (k : Z) (w : world) :
  heap w !! self = Some au -> (0 < low)%Q ->
  (high < inject_Z (sample_rate au) / 2)%Q ->
  bandpass self low high k w =
  match bandpass_filter (samples au) low high (sample_rate au) 9 with
  | LOk filtered => alloc (mkAudio filtered (sample_rate au)) w
  | LFail o => (Raise (LibraryError o), w)
  end.
Proof.
  intros H Hl Hh. unfold bandpass, bind. rewrite (get_obj_found _ _ _ H).
  apply Qle_bool_false_lt in Hl. rewrite Hl.
  apply Qle_bool_false_lt in Hh. rewrite Hh.
  unfold lift. by destruct bandpass_filter.
Qed.




(** C3. The [order] argument of [bandpass] has no effect: any order gives
    the outcome of order 9, and for cutoffs inside the range the filter is
    called with order 9. *)
Theorem bandpass_order_ignored (w : world) (self : positive) (au : Audio)
    (low high : Q) (k : Z) :
  bandpass self low high k w = bandpass self low high 9 w
  /\ (heap w !! self = Some au -> (0 < low)%Q ->
      (high < inject_Z (sample_rate au) / 2)%Q ->
      bandpass self low high k w =
      match bandpass_filter (samples au) low high (sample_rate au) 9 with
      | LOk filtered => alloc (mkAudio filtered (sample_rate au)) w
      | LFail o => (Raise (LibraryError o), w)
      end).
Proof. split; [reflexivity|]. apply bandpass_in_range. Qed.

(** *** Slices *)

Lemma slice_index_bounds (n i : Z) : 0 <= n -> 0 <= slice_index n i <= n.
Proof. intros Hn. unfold slice_index. destruct (i <? 0) eqn:E; lia. Qed.

Lemma slice_length {A} (xs : list A) (start stop : Z) :
  Z.of_nat (length (slice xs start stop)) =
  Z.max 0 (slice_index (Z.of_nat (length xs)) stop
           - slice_index (Z.of_nat (length xs)) start).
Proof.
  unfold slice. rewrite length_take, length_drop.
  pose proof (slice_index_bounds (Z.of_nat (length xs)) start ltac:(lia)).
  pose proof (slice_index_bounds (Z.of_nat (length xs)) stop ltac:(lia)).
  lia.
Qed.

Lemma slice_prefix {A} (xs : list A) (stop : Z) :
  0 <= stop <= Z.of_nat (length xs) ->
  slice xs 0 stop = take (Z.to_nat stop) xs.
Proof.
  intros H. unfold slice, slice_index. cbn [Z.ltb Z.compare].
  destruct (stop <? 0) eqn:E; [lia|].
  rewrite Z.min_l by lia. rewrite (Z.min_l 0) by lia.
  by rewrite Z.sub_0_r.
Qed.

(** C4, as the code has it. With the two sample indices
    [S = int(a * r)] and [E = int(b * r)] as the interpreter computes them
    (exact on int times, the rounded IEEE product truncated on float
    times), [trim] returns the Python slice [samples[S:E]] at the
    receiver's rate; its length is [max 0 (hi - lo)] with each index
    resolved on its own (a negative index counts from the end, then the
    index is clipped to [0, N]).  For non-negative indices that is
    [max 0 (min E N - min S N)], and when both indices lie inside the
    recording it is the clamped difference of the specification.  When an
    index cannot be computed (the product is infinite or NaN, or the rate
    does not fit a float) [trim] raises that [OverflowError] or
    [ValueError], the start time first; int times never raise. *)
Theorem trim_length (w : world) (self : positive) (au : Audio) (a b : pynum) :
  heap w !! self = Some au ->
  let N := Z.of_nat (length (samples au)) in
  match sample_index a (sample_rate au), sample_index b (sample_rate au) with
  | Ok i, Ok j =>
      exists l au',
        trim self a b w = (Ok l, set_heap (<[l := au']> (heap w)) w)
        /\ sample_rate au' = sample_rate au
        /\ samples au' = slice (samples au) i j
        /\ Z.of_nat (length (samples au')) =
           Z.max 0 (slice_index N j - slice_index N i)
        /\ (0 <= i -> 0 <= j ->
            Z.of_nat (length (samples au')) = Z.max 0 (Z.min j N - Z.min i N))
        /\ (0 <= i <= N -> 0 <= j <= N ->
            Z.of_nat (length (samples au')) = claimed_trim_length N i j)
  | Raise e, _ | Ok _, Raise e =>
      trim self a b w = (Raise e, w)
      /\ ((exists msg, e = OverflowError msg)
          \/ e = ValueError "cannot convert float NaN to integer")
      /\ (forall x y, a = PyInt x -> b = PyInt y -> False)
  end.
Proof.
  intros Hself N.
  destruct (sample_index a (sample_rate au)) as [S|e] eqn:HS.
  - destruct (sample_index b (sample_rate au)) as [E|e] eqn:HE.
    + rewrite (trim_unfold _ _ _ _ _ _ _ Hself HS HE).
      destruct (alloc_new_instance
                  (mkAudio (slice (samples au) S E) (sample_rate au)) w)
        as (l & Hl & _).
      exists l, (mkAudio (slice (samples au) S E) (sample_rate au)).
      split; [exact Hl|]. split; [reflexivity|]. split; [reflexivity|].
      cbn [samples]. rewrite slice_length. fold N.
      split; [reflexivity|]. unfold slice_index, claimed_trim_length.
      split; intros H1 H2.
      * destruct (E <? 0) eqn:E1; destruct (S <? 0) eqn:E2; lia.
      * destruct (E <? 0) eqn:E1; destruct (S <? 0) eqn:E2; lia.
    + split; [|split].
      * apply (trim_raises _ _ _ _ _ _ Hself). right. by rewrite HS.
      * by apply (sample_index_errors b (sample_rate au)).
      * intros x y _ ->. discriminate.
  - split; [|split].
    + apply (trim_raises _ _ _ _ _ _ Hself). by left.
    + by apply (sample_index_errors a (sample_rate au)).
    + intros x y ->. discriminate.
Qed.

(** *** The spectrum *)

Lemma int_half (n : nat) :
  int (inject_Z (Z.of_nat n) / 2) = Z.of_nat (n / 2).
Proof.
  unfold int, Qdiv, Qmult, Qinv, inject_Z. cbn.
  rewrite Z.mul_1_r, Z.quot_div_nonneg by lia.
  symmetry. exact (Nat2Z.inj_div n 2).
Qed.

Lemma spectrum_world (self : positive) (w : world) :
  snd (spectrum self w) = w.
Proof.
  unfold spectrum, bind, get_obj, lift.
  destruct (heap w !! self) as [au|]; [|reflexivity].
  destruct (sample_rate au =? 0); [reflexivity|]. cbn [ret].
  destruct (fft (samples au)); [|reflexivity]. cbn [propagate].
  destruct (fftfreq _ _); [|reflexivity]. cbn [propagate].
  destruct (length (samples au) =? 0)%nat; reflexivity.
Qed.

Lemma spectrum_pure (self self' : positive) (au : Audio) (w w' : world) :
  heap w !! self = Some au -> heap w' !! self' = Some au ->
  fst (spectrum self w) = fst (spectrum self' w').
Proof.
  intros H H'. unfold spectrum, bind, lift.
  rewrite (get_obj_found _ _ _ H), (get_obj_found _ _ _ H').
  destruct (sample_rate au =? 0); [reflexivity|]. cbn [ret].
  destruct (fft (samples au)); [|reflexivity]. cbn [propagate].
  destruct (fftfreq _ _); [|reflexivity]. cbn [propagate].
  destruct (length (samples au) =? 0)%nat; reflexivity.
Qed.

Lemma spectrum_empty_raises (self : positive) (au : Audio) (w : world) :
  heap w !! self = Some au -> samples au = [] ->
  exists e, spectrum self w = (Raise e, w)
            /\ (e = ZeroDivisionError \/ exists o, e = LibraryError o).
Proof.
  intros Hself Hnil. unfold spectrum, bind, lift.
  rewrite (get_obj_found _ _ _ Hself), Hnil. cbn [length Nat.eqb].
  destruct (sample_rate au =? 0); [eauto|]. cbn [ret].
  destruct (fft []); [|cbn; eauto]. cbn [propagate].
  destruct (fftfreq _ _); cbn; eauto.
Qed.

Lemma spectrum_nonempty (self : positive) (au : Audio) (w : world)
    (F : list complex) (freq : list Q) :
  let N := length (samples au) in
  heap w !! self = Some au -> N <> 0%nat -> sample_rate au <> 0 ->
  fft (samples au) = LOk F ->
  fftfreq N (1 / inject_Z (sample_rate au)) = LOk freq ->
  length F = N -> length freq = N ->
  spectrum self w =
  (Ok (map (fun c => cabs (cscale (2 / inject_Z (Z.of_nat N)) c))
         (take (N / 2) F),
       take (N / 2) freq), w).
Proof.
  intros N Hself HN Hr HF Hfreq HlF Hlfreq. unfold spectrum, bind, lift.
  rewrite (get_obj_found _ _ _ Hself).
  apply Z.eqb_neq in Hr. rewrite Hr. cbn [ret].
  rewrite HF. cbn [propagate]. fold N. rewrite Hfreq. cbn [propagate].
  apply Nat.eqb_neq in HN. rewrite HN. cbn [ret].
  rewrite int_half.
  assert (N / 2 <= N)%nat by (apply Nat.Div0.div_le_upper_bound; lia).
  rewrite !slice_prefix by lia.
  rewrite Nat2Z.id, map_map. reflexivity.
Qed.

(** C5. [spectrum] changes nothing and its outcome depends on the two
    slots only.  On a recording of [N >= 1] samples with a non-zero rate,
    where the transform and the bin frequencies come back with [N] entries
    each, it returns the magnitudes [|2/N * F[k]|] for [k < N/2] and the
    first [N/2] bin frequencies, both of length [N/2] (rounded down).  On
    an empty recording it raises instead of returning two empty
    sequences. *)
Theorem spectrum_characterised (w : world) (self : positive) (au : Audio) :
  heap w !! self = Some au ->
  let N := length (samples au) in
  snd (spectrum self w) = w
  /\ (forall w' self', heap w' !! self' = Some au ->
        fst (spectrum self' w') = fst (spectrum self w))
  /\ (N <> 0%nat -> sample_rate au <> 0 ->
      forall F freq,
        fft (samples au) = LOk F ->
        fftfreq N (1 / inject_Z (sample_rate au)) = LOk freq ->
        length F = N -> length freq = N ->
        exists magnitudes frequencies,
          fst (spectrum self w) = Ok (magnitudes, frequencies)
          /\ length magnitudes = (N / 2)%nat
          /\ length frequencies = (N / 2)%nat
          /\ magnitudes =
             map (fun c => cabs (cscale (2 / inject_Z (Z.of_nat N)) c))
               (take (N / 2) F)
          /\ frequencies = take (N / 2) freq)
  /\ (N = 0%nat -> exists e, fst (spectrum self w) = Raise e).
Proof.
  intros Hself N. split; [apply spectrum_world|].
  split; [intros w' self' H'; by apply (spectrum_pure self' self au)|].
  split.
  - intros HN Hr F freq HF Hfreq HlF Hlfreq.
    rewrite (spectrum_nonempty self au w F freq Hself HN Hr HF Hfreq HlF Hlfreq).
    assert (N / 2 <= N)%nat by (apply Nat.Div0.div_le_upper_bound; lia).
    eexists _, _. split; [reflexivity|].
    rewrite length_map, !length_take. fold N. repeat split; lia.
  - intros HN. apply length_zero_iff_nil in HN.
    destruct (spectrum_empty_raises self au w Hself HN) as (e & -> & _).
    by exists e.
Qed.

(** C6. An empty recording can be constructed, and [spectrum] on it
    raises: either a library call fails, or the division [2.0 / N] is
    taken with [N = 0]. *)
Theorem spectrum_of_empty_raises (w : world) (sr : Z) (md : option Q)
    (rt : string) :
  exists l w',
    Audio_new (Ndarray []) sr md rt w = (Ok l, w')
    /\ heap w' !! l = Some (mkAudio [] sr)
    /\ exists e, spectrum l w' = (Raise e, w')
                 /\ (e = ZeroDivisionError \/ exists o, e = LibraryError o).
Proof.
  destruct (alloc_new_instance (mkAudio [] sr) w) as (l & Hl & Hfresh).
  exists l, (set_heap (<[l := mkAudio [] sr]> (heap w)) w).
  split; [exact Hl|].
  assert (Hl' : heap (set_heap (<[l := mkAudio [] sr]> (heap w)) w) !! l
                = Some (mkAudio [] sr)) by (cbn; apply lookup_insert_eq).
  split; [exact Hl'|].
  exact (spectrum_empty_raises l _ _ Hl' eq_refl).
Qed.

(** *** Construction *)

Lemma from_path_world (path : string) (sr : Z) (md : option Q) (rt : string)
    (w : world) :
  snd (from_path path sr md rt w) = w.
Proof.
  unfold from_path, bind, is_file.
  destruct (bool_decide _); cbn; [|done].
  destruct md as [m|]; cbn; [|done].
  destruct get_duration as [d|]; cbn; [|done].
  by destruct (Qle_bool d m).
Qed.

Lemma from_stream_world (content : string) (sr : Z) (rt : string) (w : world) :
  snd (from_stream content sr rt w) = w.
Proof.
  unfold from_stream, bind, lift.
  destruct soundfile_read as [[y r]|]; cbn; [|done].
  destruct resample as [[xs|ch]|]; cbn; done.
Qed.

Lemma Audio_new_outcome (audio : source) (sr : Z) (md : option Q)
    (rt : string) (w : world) :
  (exists e w', Audio_new audio sr md rt w = (Raise e, w')
                /\ heap w' = heap w /\ files w' = files w)
  \/ (exists l a w1, Audio_new audio sr md rt w =
                     (Ok l, set_heap (<[l := mkAudio a sr]> (heap w)) w1)
                     /\ heap w !! l = None
                     /\ heap w1 = heap w /\ files w1 = files w).
Proof.
  assert (Hinit : heap (snd (init_samples audio sr md rt w)) = heap w
                  /\ files (snd (init_samples audio sr md rt w)) = files w).
  { destruct audio as [p|p|p|c|a|cls]; cbn [init_samples];
      rewrite ?from_path_world; try done.
    unfold bind, print. by rewrite from_stream_world. }
  unfold Audio_new, bind.
  destruct (init_samples audio sr md rt w) as [[a|e] w1]; cbn in Hinit;
    destruct Hinit as [Hh Hf].
  - right. destruct (alloc_new_instance (mkAudio a sr) w1) as (l & -> & Hfresh).
    exists l, a, w1. rewrite Hh in *. by repeat split.
  - left. by exists e, w1.
Qed.

(** C7, as the code has it. Whatever the source, a constructed object
    stores the caller's [sample_rate] argument as it was given: the stored
    rate is positive exactly when the argument is. *)
Theorem constructed_sample_rate (audio : source) (sr : Z) (md : option Q)
    (rt : string) (w w' : world) (l : positive) :
  Audio_new audio sr md rt w = (Ok l, w') ->
  exists au, heap w' !! l = Some au
             /\ sample_rate au = sr
             /\ (0 < sample_rate au <-> 0 < sr).
Proof.
  intros Hnew.
  destruct (Audio_new_outcome audio sr md rt w)
    as [(e & w1 & He & _)|(l1 & a & w1 & Hok & _)]; [congruence|].
  rewrite Hok in Hnew. injection Hnew as -> <-.
  exists (mkAudio a sr). cbn. by rewrite lookup_insert_eq.
Qed.


(** *** Saving *)

Lemma split_nonempty (sep : ascii) (s : string) : split sep s <> [].
Proof.
  destruct s as [|c s]; cbn; [done|].
  destruct (Ascii.eqb c sep); [done|]. by destruct (split sep s).
Qed.

Lemma join_split (sep : ascii) (s : string) : join sep (split sep s) = s.
Proof.
  induction s as [|c s IH]; [reflexivity|]. cbn [split].
  destruct (Ascii.eqb c sep) eqn:Ec.
  - apply Ascii.eqb_eq in Ec. subst c.
    pose proof (split_nonempty sep s) as Hne.
    destruct (split sep s) as [|t ts]; [done|].
    change (join sep (EmptyString :: t :: ts))
      with (String sep (join sep (t :: ts))).
    by rewrite IH.
  - pose proof (split_nonempty sep s) as Hne.
    destruct (split sep s) as [|t ts]; [done|].
    rewrite <- IH. by destruct ts.
Qed.

Lemma append_cons (c : ascii) (x y : string) :
  String c x +:+ y = String c (x +:+ y).
Proof. reflexivity. Qed.

Lemma append_assoc (x y z : string) : (x +:+ y) +:+ z = x +:+ (y +:+ z).
Proof.
  induction x as [|c x IH]; [reflexivity|].
  by rewrite !append_cons, IH.
Qed.

Lemma join_snoc (sep : ascii) (parts : list string) (t : string) :
  parts <> [] -> join sep (parts ++ [t]) = join sep parts +:+ String sep t.
Proof.
  induction parts as [|x parts IH]; [done|]. intros _.
  destruct parts as [|y parts]; [reflexivity|].
  change (join sep ((x :: y :: parts) ++ [t]))
    with (x +:+ String sep (join sep ((y :: parts) ++ [t]))).
  rewrite IH by done.
  change (join sep (x :: y :: parts))
    with (x +:+ String sep (join sep (y :: parts))).
  by rewrite append_assoc.
Qed.

Lemma split_app_sep (sep : ascii) (pre t : string) :
  split sep (pre +:+ String sep t) = (split sep pre ++ split sep t)%list.
Proof.
  induction pre as [|c pre IH].
  - change (EmptyString +:+ String sep t) with (String sep t).
    cbn [split app]. by rewrite Ascii.eqb_refl.
  - rewrite append_cons. cbn [split]. rewrite IH.
    destruct (Ascii.eqb c sep); [reflexivity|].
    pose proof (split_nonempty sep pre) as Hne.
    by destruct (split sep pre).
Qed.

Lemma last_item_app (xs ys : list string) :
  ys <> [] -> last_item (xs ++ ys)%list = last_item ys.
Proof.
  intros Hys. unfold last_item.
  induction xs as [|x xs IH]; [reflexivity|].
  cbn [app]. destruct (xs ++ ys)%list eqn:E; [|exact IH].
  by destruct xs, ys.
Qed.

Lemma endswith_iff (s suffix : string) :
  endswith s suffix = true <-> exists pre, s = pre +:+ suffix.
Proof.
  split.
  - induction s as [|c s IH]; cbn [endswith].
    + destruct (String.eqb_spec EmptyString suffix) as [<-|]; [|done].
      by exists EmptyString.
    + destruct (String.eqb_spec (String c s) suffix) as [<-|].
      * by exists EmptyString.
      * intros H. destruct (IH H) as [pre ->]. by exists (String c pre).
  - intros [pre ->]. induction pre as [|c pre IH].
    + change (EmptyString +:+ suffix) with suffix.
      destruct suffix; cbn [endswith]; by rewrite String.eqb_refl.
    + rewrite append_cons. cbn [endswith]. rewrite IH. by destruct String.eqb.
Qed.

(** The last dot-separated token is [wav] for the bare name [wav] and for
    the paths that end in [.wav], and for no others. *)
Lemma last_token_wav (path : string) :
  last_item (split "." path) = "wav"
  <-> path = "wav" \/ endswith path ".wav" = true.
Proof.
  rewrite endswith_iff. split.
  - intros Hlast.
    pose proof (join_split "." path) as Hjoin.
    pose proof (split_nonempty "." path) as Hne.
    set (parts := split "." path) in *.
    assert (Hparts : parts = (removelast parts ++ [last_item parts])%list)
      by (apply app_removelast_last, Hne).
    rewrite Hlast in Hparts.
    destruct (removelast parts) as [|x xs] eqn:Einit.
    + left. rewrite <- Hjoin, Hparts. reflexivity.
    + right. exists (join "." (x :: xs)).
      rewrite <- Hjoin, Hparts. by rewrite join_snoc.
  - intros [->|[pre ->]]; [reflexivity|].
    change (pre +:+ ".wav") with (pre +:+ String "." "wav").
    rewrite split_app_sep, last_item_app; done.
Qed.

Lemma save_rejected (self : positive) (path : string) (w : world) :
  last_item (split "." path) <> "wav" ->
  save self path w = (Raise (ValueError "file extension must be .wav"), w).
Proof.
  intros Hne. unfold save.
  by destruct (String.eqb_spec (last_item (split "." path)) "wav").
Qed.

Lemma save_written (self : positive) (au : Audio) (path : string) (w : world) :
  heap w !! self = Some au -> last_item (split "." path) = "wav" ->
  save self path w =
  (propagate (fst (write_wav path (sample_rate au) (samples au) (files w))),
   set_files (snd (write_wav path (sample_rate au) (samples au) (files w))) w).
Proof.
  intros Hself Heq. unfold save, bind. rewrite Heq, String.eqb_refl. cbn [negb].
  rewrite (get_obj_found _ _ _ Hself). by destruct write_wav.
Qed.

(** C9. [save] raises its format error, and leaves the world as it was,
    for every path that neither ends in [.wav] nor is the bare name [wav];
    on the path [wav], which has no extension, the check passes and the
    file is written. *)
Theorem save_extension_guard (w : world) (self : positive) (au : Audio) :
  heap w !! self = Some au ->
  (forall path, endswith path ".wav" = false -> path <> "wav" ->
     save self path w = (Raise (ValueError "file extension must be .wav"), w))
  /\ endswith "wav" ".wav" = false
  /\ save self "wav" w =
     (propagate (fst (write_wav "wav" (sample_rate au) (samples au) (files w))),
      set_files (snd (write_wav "wav" (sample_rate au) (samples au) (files w)))
        w).
Proof.
  intros Hself. split; [|split; [reflexivity|]].
  - intros path Hends Hbare. apply save_rejected.
    rewrite last_token_wav. intros [?|?]; congruence.
  - by apply save_written.
Qed.

(** C10. The check of [save] compares the last dot-separated token of the
    path with [wav], case-sensitively: [save] raises its format error
    exactly when the token differs, and otherwise hands the path to the
    writer.  The bare name [wav] passes; a path ending in [.WAV] is
    rejected. *)
Theorem save_checks_last_token (w : world) (self : positive) (au : Audio)
    (path : string) :
  heap w !! self = Some au ->
  ((exists msg, fst (save self path w) = Raise (ValueError msg))
   <-> last_item (split "." path) <> "wav")
  /\ (last_item (split "." path) <> "wav" ->
      save self path w =
      (Raise (ValueError "file extension must be .wav"), w))
  /\ (last_item (split "." path) = "wav" ->
      save self path w =
      (propagate (fst (write_wav path (sample_rate au) (samples au) (files w))),
       set_files (snd (write_wav path (sample_rate au) (samples au) (files w)))
         w))
  /\ last_item (split "." "wav") = "wav"
  /\ last_item (split "." "song.WAV") <> "wav".
Proof.
  intros Hself. split; [split|split; [|split; [|split]]].
  - intros [msg Hmsg] Heq.
    rewrite (save_written _ _ _ _ Hself Heq) in Hmsg. cbn [fst] in Hmsg.
    by destruct (fst (write_wav _ _ _ _)).
  - intros Hne. eexists. by rewrite (save_rejected _ _ _ Hne).
  - apply save_rejected.
  - by apply save_written.
  - reflexivity.
  - by cbn.
Qed.

End Properties.

(** * Further properties of [Audio] *)

Section Construction.
Context `{L : Libs}.

(** X1. Construction from an array never raises and performs no check: the
    new object holds the very array and rate it was given, whatever
    [max_duration] and [resample_type] are, and nothing else changes. *)
Theorem array_construction (a : list Q) (sr : Z) (md : option Q) (rt : string)
    (w : world) :
  exists l,
    Audio_new (Ndarray a) sr md rt w =
    (Ok l, set_heap (<[l := mkAudio a sr]> (heap w)) w)
    /\ heap w !! l = None.
Proof. exact (alloc_new_instance (mkAudio a sr) w). Qed.


(** X3. Construction from a stream prints one line, decodes, resamples
    from the rate of the stream to the requested rate, and mixes down only
    a multi-channel result; the object stores the requested rate.
    [max_duration] plays no part. *)
Theorem stream_construction (content : string) (sr : Z) (md : option Q)
    (rt : string) (w : world) (y y' : ndarray) (r0 : Z) :
  soundfile_read content = LOk (y, r0) ->
  resample y r0 sr rt = LOk y' ->
  let w1 := {| heap := heap w; files := files w;
               stdout := stdout w ++ ["BytesIO object"] |} in
  Audio_new (Stream content) sr md rt w =
  match match y' with Arr1 xs => LOk xs | Arr2 ch => to_mono ch end with
  | LOk mono => alloc (mkAudio mono sr) w1
  | LFail o => (Raise (LibraryError o), w1)
  end.
Proof.
  intros Hread Hres w1.
  unfold Audio_new, init_samples, from_stream, bind, print, lift.
  rewrite Hread. cbn. rewrite Hres. cbn.
  destruct y' as [xs|ch]; [reflexivity|]. by destruct to_mono.
Qed.

(** X4. Construction from a string or a concrete path that names an
    existing file whose duration does not exceed [max_duration] (equality
    included), or with no maximum at all, stores what [librosa.load]
    returns at the requested rate. *)
Theorem path_construction_loads (audio : source) (path : string) (sr : Z)
    (md : option Q) (rt : string) (w : world) (s : list Q) :
  audio = Str path \/ audio = PathObj path ->
  is_Some (files w !! path) ->
  md = None
  \/ (exists m d, md = Some m /\ get_duration (files w) path = LOk d
                  /\ (d <= m)%Q) ->
  load (files w) path sr rt = LOk s ->
  exists l,
    Audio_new audio sr md rt w =
    (Ok l, set_heap (<[l := mkAudio s sr]> (heap w)) w)
    /\ heap w !! l = None.
Proof.
  intros Haudio Hfile Hmd Hload.
  assert (Hs : init_samples audio sr md rt w = (Ok s, w)).
  { assert (from_path path sr md rt w = (Ok s, w)) as Hp.
    { unfold from_path, bind, is_file.
      rewrite bool_decide_eq_true_2 by assumption. cbn [negb].
      destruct Hmd as [->|(m & d & -> & Hd & Hle)]; cbn.
      - by rewrite Hload.
      - rewrite Hd. cbn. apply Qle_bool_iff in Hle. rewrite Hle. cbn.
        by rewrite Hload. }
    by destruct Haudio as [->| ->]. }
  unfold Audio_new, bind. rewrite Hs.
  exact (alloc_new_instance (mkAudio s sr) w).
Qed.

End Construction.

Section Trimming.
Context `{L : Libs}.

Lemma slice_nonneg {A} (xs : list A) (start stop : Z) :
  0 <= start -> 0 <= stop ->
  slice xs start stop =
  take (Z.to_nat (Z.min stop (Z.of_nat (length xs)))
        - Z.to_nat (Z.min start (Z.of_nat (length xs))))
    (drop (Z.to_nat (Z.min start (Z.of_nat (length xs)))) xs).
Proof.
  intros Hs He. unfold slice, slice_index.
  destruct (start <? 0) eqn:E1; [lia|]. destruct (stop <? 0) eqn:E2; [lia|].
  f_equal. lia.
Qed.


Lemma take_drop_eq {A} (xs : list A) (a b c d : nat) :
  (a = c /\ b = d) \/ (a = 0 /\ c = 0)%nat ->
  take a (drop b xs) = take c (drop d xs).
Proof. intros [[-> ->]|[-> ->]]; reflexivity. Qed.

(** Slicing a slice, for indices that do not count from the end. *)
Lemma slice_slice {A} (xs : list A) (s e s' e' : Z) :
  0 <= s -> 0 <= e -> 0 <= s' -> 0 <= e' ->
  slice (slice xs s e) s' e' = slice xs (s + s') (Z.min e (s + e')).
Proof.
  intros Hs He Hs' He'.
  rewrite (slice_nonneg (slice xs s e)) by assumption.
  pose proof (slice_length xs s e) as Hlen.
  unfold slice_index in Hlen.
  destruct (s <? 0) eqn:E1; [lia|]. destruct (e <? 0) eqn:E2; [lia|].
  rewrite Hlen. clear Hlen.
  rewrite (slice_nonneg xs s e), (slice_nonneg xs (s + s')) by lia.
  set (n := Z.of_nat (length xs)).
  rewrite skipn_firstn_comm, take_take, drop_drop.
  apply take_drop_eq.
  assert (Hn : 0 <= n) by (unfold n; lia). clearbody n.
  assert (Hfin : (e `min` (s + e')) `min` n = (e `min` n) `min` (s + e'))
    by lia.
  rewrite Hfin. clear Hfin.
  assert (Hlo : 0 <= s `min` n <= n /\ s `min` n <= s) by lia.
  assert (Hhi : 0 <= e `min` n <= n) by lia.
  assert (Hlos : s `min` n < e `min` n -> s `min` n = s) by lia.
  generalize dependent (e `min` n). intros hi Hhi Hlos.
  generalize dependent (s `min` n). intros lo Hlo Hlos.
  clear E1 E2 He.
  destruct (Z.le_gt_cases hi lo) as [Hc|Hc].
  - right. rewrite (Z.max_l 0) by lia. rewrite !(Z.min_r _ 0) by lia.
    split; [reflexivity|].
    assert (lo <= (s + s') `min` n) by lia. lia.
  - pose proof (Hlos Hc) as Heq. subst lo. clear Hlos. rewrite Z.max_r by lia.
    destruct (Z.le_gt_cases s' (hi - s)) as [Hs2|Hs2].
    + left. rewrite (Z.min_l s') by lia. rewrite (Z.min_l (s + s')) by lia.
      split; [|lia].
      destruct (Z.le_gt_cases e' (hi - s)) as [He2|He2].
      * rewrite (Z.min_l e'), (Z.min_r hi) by lia. lia.
      * rewrite (Z.min_r e'), (Z.min_l hi) by lia. lia.
    + right. rewrite (Z.min_r s') by lia.
      assert (e' `min` (hi - s) <= hi - s) by lia.
      assert (hi `min` (s + e') <= hi) by lia.
      assert (hi <= (s + s') `min` n) by lia.
      generalize dependent (e' `min` (hi - s)).
      generalize dependent (hi `min` (s + e')).
      generalize dependent ((s + s') `min` n). intros. lia.
Qed.


(** X6. Trimming from 0 to any end time whose sample index is at or past
    the last sample returns a new object with the same samples and
    rate. *)
Theorem trim_to_the_end (w : world) (self : positive) (au : Audio)
    (b : pynum) (j : Z) :
  heap w !! self = Some au ->
  sample_index b (sample_rate au) = Ok j ->
  Z.of_nat (length (samples au)) <= j ->
  exists l,
    trim self (PyInt 0) b w = (Ok l, set_heap (<[l := au]> (heap w)) w)
    /\ l <> self.
Proof.
  intros Hself Hj Hend.
  rewrite (trim_unfold _ _ _ _ 0 j _ Hself (sample_index_int 0 _) Hj).
  rewrite slice_nonneg by lia.
  rewrite Z.min_r, Z.min_l by lia.
  rewrite Nat2Z.id. change (Z.to_nat 0) with 0%nat.
  rewrite Nat.sub_0_r, drop_0, firstn_all.
  destruct au as [xs r]. cbn [samples sample_rate].
  destruct (alloc_new_instance (mkAudio xs r) w) as (l & Hl & Hfresh).
  exists l. split; [exact Hl|]. congruence.
Qed.

(** X7. Trimming twice is trimming once: when the four sample indices the
    interpreter computes, [i], [j] for the first trim and [i'], [j'] for
    the second, are non-negative, the second trim cuts
    [samples[i + i' : min(j, i + j')]] out of the original recording, at
    the original rate. *)
Theorem trim_trim (w : world) (self : positive) (au : Audio)
    (a b c d : pynum) (i j i' j' : Z) :
  heap w !! self = Some au ->
  sample_index a (sample_rate au) = Ok i ->
  sample_index b (sample_rate au) = Ok j ->
  sample_index c (sample_rate au) = Ok i' ->
  sample_index d (sample_rate au) = Ok j' ->
  0 <= i -> 0 <= j -> 0 <= i' -> 0 <= j' ->
  exists l1 w1 l2 au2,
    trim self a b w = (Ok l1, w1)
    /\ trim l1 c d w1 = (Ok l2, set_heap (<[l2 := au2]> (heap w1)) w1)
    /\ sample_rate au2 = sample_rate au
    /\ samples au2 = slice (samples au) (i + i') (Z.min j (i + j')).
Proof.
  intros Hself Hi Hj Hi' Hj' H1 H2 H3 H4.
  rewrite (trim_unfold _ _ _ _ _ _ _ Hself Hi Hj).
  set (au1 := mkAudio (slice (samples au) i j) (sample_rate au)).
  destruct (alloc_new_instance au1 w) as (l1 & Hl1 & _).
  set (w1 := set_heap (<[l1 := au1]> (heap w)) w) in *.
  assert (Hau1 : heap w1 !! l1 = Some au1) by (cbn; apply lookup_insert_eq).
  exists l1, w1.
  rewrite (trim_unfold l1 au1 c d i' j' w1 Hau1 Hi' Hj').
  cbn [au1 samples sample_rate].
  set (au2 := mkAudio _ _).
  destruct (alloc_new_instance au2 w1) as (l2 & Hl2 & _).
  exists l2, au2. split; [exact Hl1|]. split; [exact Hl2|].
  split; [reflexivity|]. cbn [au2 samples]. by apply slice_slice.
Qed.

(** X8. When the end index is non-negative and not after the start index,
    [trim] returns an empty recording, and [spectrum] on that recording
    raises.  For int times [0 <= y <= x] at a non-negative rate the
    indices are always so. *)
Theorem trim_reversed_is_empty (w : world) (self : positive) (au : Audio) :
  heap w !! self = Some au ->
  (forall a b i j,
     sample_index a (sample_rate au) = Ok i ->
     sample_index b (sample_rate au) = Ok j ->
     0 <= j <= i ->
     exists l w',
       trim self a b w = (Ok l, w')
       /\ heap w' !! l = Some (mkAudio [] (sample_rate au))
       /\ exists e, spectrum l w' = (Raise e, w'))
  /\ (forall x y,
        0 <= sample_rate au -> 0 <= y <= x ->
        exists l w',
          trim self (PyInt x) (PyInt y) w = (Ok l, w')
          /\ heap w' !! l = Some (mkAudio [] (sample_rate au))
          /\ exists e, spectrum l w' = (Raise e, w')).
Proof.
  intros Hself.
  assert (Hgen : forall a b i j,
     sample_index a (sample_rate au) = Ok i ->
     sample_index b (sample_rate au) = Ok j ->
     0 <= j <= i ->
     exists l w',
       trim self a b w = (Ok l, w')
       /\ heap w' !! l = Some (mkAudio [] (sample_rate au))
       /\ exists e, spectrum l w' = (Raise e, w')).
  { intros a b i j Hi Hj Hji.
    rewrite (trim_unfold _ _ _ _ _ _ _ Hself Hi Hj).
    assert (slice (samples au) i j = []) as ->.
    { apply length_zero_iff_nil.
      pose proof (slice_length (samples au) i j) as Hlen.
      unfold slice_index in Hlen.
      destruct (i <? 0) eqn:E1; [lia|]. destruct (j <? 0) eqn:E2; lia. }
    destruct (alloc_new_instance (mkAudio [] (sample_rate au)) w)
      as (l & Hl & _).
    exists l, (set_heap (<[l := mkAudio [] (sample_rate au)]> (heap w)) w).
    split; [exact Hl|].
    assert (Hnew : heap (set_heap (<[l := mkAudio [] (sample_rate au)]>
                                     (heap w)) w) !! l
                   = Some (mkAudio [] (sample_rate au)))
      by (cbn; apply lookup_insert_eq).
    split; [exact Hnew|].
    destruct (spectrum_empty_raises l _ _ Hnew eq_refl) as (e & He & _).
    by exists e. }
  split; [exact Hgen|].
  intros x y Hr Hxy.
  apply (Hgen (PyInt x) (PyInt y) (x * sample_rate au) (y * sample_rate au));
    [apply sample_index_int..|nia].
Qed.

End Trimming.

Section SpectrumAndSave.
Context `{L : Libs}.

(** X9. On a recording whose sample rate is 0, [spectrum] raises
    [ZeroDivisionError] at [1 / sample_rate], before any library is
    called; such a recording can be constructed from any array. *)
Theorem spectrum_zero_rate (w : world) (a : list Q) (md : option Q)
    (rt : string) :
  exists l w',
    Audio_new (Ndarray a) 0 md rt w = (Ok l, w')
    /\ heap w' !! l = Some (mkAudio a 0)
    /\ spectrum l w' = (Raise ZeroDivisionError, w').
Proof.
  destruct (alloc_new_instance (mkAudio a 0) w) as (l & Hl & _).
  exists l, (set_heap (<[l := mkAudio a 0]> (heap w)) w).
  split; [exact Hl|].
  assert (Hnew : heap (set_heap (<[l := mkAudio a 0]> (heap w)) w) !! l
                 = Some (mkAudio a 0)) by (cbn; apply lookup_insert_eq).
  split; [exact Hnew|].
  unfold spectrum, bind. by rewrite (get_obj_found _ _ _ Hnew).
Qed.

(** X10. A recording of a single sample has an empty spectrum: when the
    two library calls return, whatever they return, [spectrum] yields two
    empty sequences. *)
Theorem spectrum_single_sample (w : world) (self : positive) (au : Audio)
    (x : Q) (F : list complex) (freq : list Q) :
  heap w !! self = Some au -> samples au = [x] -> sample_rate au <> 0 ->
  fft [x] = LOk F ->
  fftfreq 1 (1 / inject_Z (sample_rate au)) = LOk freq ->
  spectrum self w = (Ok ([], []), w).
Proof.
  intros Hself Hx Hr HF Hfreq. unfold spectrum, bind, lift.
  rewrite (get_obj_found _ _ _ Hself), Hx.
  apply Z.eqb_neq in Hr. rewrite Hr. cbn [ret length].
  rewrite HF. cbn [propagate]. rewrite Hfreq. cbn [propagate Nat.eqb ret].
  assert (int (inject_Z (Z.of_nat 1) / 2) = 0) as -> by reflexivity.
  assert (forall A (ys : list A), slice ys 0 0 = []) as Hz.
  { intros A ys. unfold slice, slice_index. cbn [Z.ltb Z.compare].
    rewrite Z.sub_diag. reflexivity. }
  by rewrite !Hz.
Qed.

(** X11. [save] never changes an object or prints; it changes the file
    system only through the writer, so not at all when the check fails or
    the writer leaves it alone. *)
Theorem save_keeps_objects (w : world) (self : positive) (path : string) :
  heap (snd (save self path w)) = heap w
  /\ stdout (snd (save self path w)) = stdout w
  /\ (last_item (split "." path) <> "wav" ->
      files (snd (save self path w)) = files w)
  /\ (forall au,
        heap w !! self = Some au ->
        snd (write_wav path (sample_rate au) (samples au) (files w)) = files w ->
        snd (save self path w) = w).
Proof.
  unfold save, bind, get_obj.
  destruct (String.eqb_spec (last_item (split "." path)) "wav") as [Heq|Hne];
    cbn [negb].
  - destruct (heap w !! self) as [au|] eqn:Hself.
    + destruct (write_wav _ _ _ _) as [r f] eqn:Ew. cbn.
      split; [reflexivity|]. split; [reflexivity|]. split; [done|].
      intros au' [= <-]. rewrite Ew. cbn. intros ->. by destruct w.
    + cbn. split; [reflexivity|]. split; [reflexivity|]. split; [done|].
      intros au [=].
  - cbn. split; [reflexivity|]. split; [reflexivity|]. split; [done|].
    by intros au _ _.
Qed.

(** X12. Every path that ends in [.wav] passes the check, whatever comes
    before (other dots, directories, nothing at all): the writer is called
    with that path, the rate and the samples of the recording. *)
Theorem save_accepts_dot_wav (w : world) (self : positive) (au : Audio)
    (stem : string) :
  heap w !! self = Some au ->
  save self (stem +:+ ".wav") w =
  (propagate (fst (write_wav (stem +:+ ".wav") (sample_rate au) (samples au)
                     (files w))),
   set_files (snd (write_wav (stem +:+ ".wav") (sample_rate au) (samples au)
                     (files w))) w).
Proof.
  intros Hself. apply save_written; [assumption|].
  apply last_token_wav. right. apply endswith_iff. by exists stem.
Qed.

End SpectrumAndSave.

Section Repr.

Lemma append_inv_head (x y z : string) : x +:+ y = x +:+ z -> y = z.
Proof.
  induction x as [|c x IH]; [done|]. rewrite !append_cons. intros [= H].
  by apply IH.
Qed.

Lemma append_inv_at (c : ascii) (a a' r r' : string) :
  occurs c a = false -> occurs c a' = false ->
  a +:+ String c r = a' +:+ String c r' -> a = a' /\ r = r'.
Proof.
  revert a'. induction a as [|x a IH]; intros [|x' a'] Ha Ha'.
  - by intros [= ->].
  - rewrite append_cons. intros [= <- _]. cbn [occurs] in Ha'.
    by rewrite Ascii.eqb_refl in Ha'.
  - rewrite append_cons. intros [= -> _]. cbn [occurs] in Ha.
    by rewrite Ascii.eqb_refl in Ha.
  - rewrite !append_cons. intros [= -> H]. cbn [occurs] in Ha, Ha'.
    apply orb_false_iff in Ha as [_ Ha]. apply orb_false_iff in Ha' as [_ Ha'].
    destruct (IH a' Ha Ha' H) as [-> ->]. done.
Qed.

Lemma pretty_N_go_occurs (c : ascii) (x : N) (s : string) :
  (forall d, pretty_N_char d <> c) -> occurs c s = false ->
  occurs c (pretty_N_go x s) = false.
Proof.
  intros Hc. revert s. induction (N.lt_wf_0 x) as [x _ IH]. intros s Hs.
  assert (x = 0 \/ 0 < x)%N as [->|Hx] by lia.
  - by rewrite pretty_N_go_0.
  - rewrite pretty_N_go_step by done. apply IH; [by apply N.div_lt|].
    cbn [occurs]. rewrite Hs, orb_false_r. apply (proj2 (Ascii.eqb_neq _ _)), Hc.
Qed.

Lemma pretty_N_occurs (c : ascii) (x : N) :
  (forall d, pretty_N_char d <> c) -> occurs c (pretty x) = false.
Proof.
  intros Hc. unfold pretty, pretty_N. case_decide.
  - cbn [occurs]. rewrite orb_false_r.
    apply (proj2 (Ascii.eqb_neq _ _)). exact (Hc 0%N).
  - by apply pretty_N_go_occurs.
Qed.

Lemma pretty_Z_occurs (c : ascii) (x : Z) :
  (forall d, pretty_N_char d <> c) -> c <> "-"%char ->
  occurs c (pretty x) = false.
Proof.
  intros Hc Hdash. unfold pretty, pretty_Z. destruct x as [|p|p].
  - cbn [occurs]. rewrite orb_false_r.
    apply (proj2 (Ascii.eqb_neq _ _)). exact (Hc 0%N).
  - by apply (pretty_N_occurs c (N.pos p)).
  - change ("-" +:+ pretty p) with (String "-" (pretty (N.pos p))).
    cbn [occurs].
    rewrite (pretty_N_occurs c (N.pos p) Hc), orb_false_r.
    apply (proj2 (Ascii.eqb_neq _ _)). congruence.
Qed.

Lemma comma_not_digit (d : N) : pretty_N_char d <> ","%char.
Proof. unfold pretty_N_char. by repeat case_match. Qed.

Lemma paren_not_digit (d : N) : pretty_N_char d <> ")"%char.
Proof. unfold pretty_N_char. by repeat case_match. Qed.

(** X13. The text [__repr__] returns can be read back: two recordings with
    the same text have the same number of samples and the same sample
    rate.  Producing it changes nothing. *)
Theorem repr_determines (w w' : world) (self self' : positive)
    (au au' : Audio) :
  heap w !! self = Some au -> heap w' !! self' = Some au' ->
  snd (__repr__ self w) = w
  /\ (fst (__repr__ self w) = fst (__repr__ self' w') ->
      length (samples au) = length (samples au')
      /\ sample_rate au = sample_rate au').
Proof.
  intros H H'. unfold __repr__, bind.
  rewrite (get_obj_found _ _ _ H), (get_obj_found _ _ _ H'). cbn [ret fst snd].
  split; [reflexivity|]. intros [= Heq].
  apply append_inv_head in Heq.
  change (",), sample_rate=" +:+ ?x) with (String "," ("), sample_rate=" +:+ x))
    in Heq.
  apply append_inv_at in Heq as [Hn Heq];
    [|apply (pretty_N_occurs _ _ comma_not_digit)..].
  apply (inj pretty) in Hn. split; [exact Hn|].
  apply append_inv_head in Heq.
  change (")>") with (String ")" ">") in Heq.
  apply append_inv_at in Heq as [Hr _];
    [|by apply (pretty_Z_occurs _ _ paren_not_digit)..].
  by apply (inj pretty) in Hr.
Qed.

End Repr.

(** * Properties of openbird.py *)

Section OpenbirdProperties.
Context `{B : Bird}.

Lemma isfile_found (p : string) (w : world) :
  is_Some (files w !! p) -> isfile p w = (Ok true, w).
Proof. intros H. unfold isfile. by rewrite bool_decide_eq_true_2. Qed.

Lemma isfile_missing (p : string) (w : world) :
  files w !! p = None -> isfile p w = (Ok false, w).
Proof.
  intros H. unfold isfile. rewrite bool_decide_eq_false_2; [done|].
  rewrite H. by intros [? ?].
Qed.

Lemma generate_config_missing_default (fd fo name : string) (w : world) :
  files w !! path_join openbird_dir fd = None ->
  generate_config fd fo name w =
  (Raise (FileNotFoundError (path_join openbird_dir fd)), w).
Proof.
  intros Hd. unfold generate_config, bind. by rewrite (isfile_missing _ _ Hd).
Qed.

Lemma generate_config_missing_override (fd fo name : string) (w : world) :
  is_Some (files w !! path_join openbird_dir fd) ->
  files w !! path_join openbird_dir fo = None ->
  generate_config fd fo name w =
  (Raise (FileNotFoundError (path_join openbird_dir fo)), w).
Proof.
  intros Hd Ho. unfold generate_config, bind.
  rewrite (isfile_found _ _ Hd). cbn [negb].
  by rewrite (isfile_missing _ _ Ho).
Qed.

Lemma generate_config_world (fd fo name : string) (w : world) :
  snd (generate_config fd fo name w) = w.
Proof.
  unfold generate_config, bind, isfile, lift.
  destruct (bool_decide _); cbn; [|done].
  destruct (bool_decide _); cbn; [|done].
  destruct config_read; cbn; [|done].
  by destruct config_read.
Qed.

(** X14. [generate_config] raises [FileNotFoundError] for the first of the
    two files that is missing, the default file first, naming the path as
    joined to the directory of the script; nothing is parsed and the world
    is unchanged. *)
Theorem generate_config_missing_file (fd fo name : string) (w : world) :
  (files w !! path_join openbird_dir fd = None ->
   generate_config fd fo name w =
   (Raise (FileNotFoundError (path_join openbird_dir fd)), w))
  /\ (is_Some (files w !! path_join openbird_dir fd) ->
      files w !! path_join openbird_dir fo = None ->
      generate_config fd fo name w =
      (Raise (FileNotFoundError (path_join openbird_dir fo)), w)).
Proof.
  split;
    [apply generate_config_missing_default
    |apply generate_config_missing_override].
Qed.

(** X15. When both files exist, the default file is read into a fresh
    parser, then the override file into the same parser, and the section
    is taken from the result; a failure of the parser or a missing section
    is passed on.  In every case the world is left as it was. *)
Theorem generate_config_reads_in_order (fd fo name : string) (w : world) :
  snd (generate_config fd fo name w) = w
  /\ (is_Some (files w !! path_join openbird_dir fd) ->
      is_Some (files w !! path_join openbird_dir fo) ->
      fst (generate_config fd fo name w) =
      match config_read ConfigParser (files w) (path_join openbird_dir fd) with
      | LFail o => Raise (LibraryError o)
      | LOk c1 =>
          match config_read c1 (files w) (path_join openbird_dir fo) with
          | LFail o => Raise (LibraryError o)
          | LOk c2 => propagate (config_getitem c2 name)
          end
      end).
Proof.
  split; [apply generate_config_world|]. intros Hd Ho.
  unfold generate_config, bind, lift.
  rewrite (isfile_found _ _ Hd). cbn [negb].
  rewrite (isfile_found _ _ Ho). cbn [negb].
  destruct config_read; cbn; [|done]. by destruct config_read.
Qed.

(** X16. An override path that is absolute is looked up as given; a
    relative one is looked up under the directory of the script, whatever
    the working directory is. *)
Theorem override_resolution (fd fo name : string) (w : world) :
  is_Some (files w !! path_join openbird_dir fd) ->
  (forall rest, fo = String "/" rest -> files w !! fo = None ->
     generate_config fd fo name w = (Raise (FileNotFoundError fo), w))
  /\ (forall c rest,
        fo = String c rest -> c <> "/"%char ->
        openbird_dir <> EmptyString -> endswith openbird_dir "/" = false ->
        files w !! (openbird_dir +:+ "/" +:+ fo) = None ->
        generate_config fd fo name w =
        (Raise (FileNotFoundError (openbird_dir +:+ "/" +:+ fo)), w)).
Proof.
  intros Hd. split.
  - intros rest -> Ho.
    by rewrite (generate_config_missing_override fd _ name w Hd).
  - intros c rest -> Hc Hdir Hslash Ho.
    assert (path_join openbird_dir (String c rest)
            = openbird_dir +:+ "/" +:+ String c rest) as Hjoin.
    { unfold path_join. destruct (Ascii.eqb_spec c "/") as [->|_]; [done|].
      assert (match String c rest with
              | String "/" _ => String c rest
              | _ => match openbird_dir with
                     | EmptyString => String c rest
                     | _ => if endswith openbird_dir "/"
                            then openbird_dir +:+ String c rest
                            else openbird_dir +:+ "/" +:+ String c rest
                     end
              end
              = match openbird_dir with
                | EmptyString => String c rest
                | _ => if endswith openbird_dir "/"
                       then openbird_dir +:+ String c rest
                       else openbird_dir +:+ "/" +:+ String c rest
                end) as ->.
      { destruct c as [[] [] [] [] [] [] [] []]; try reflexivity.
        by destruct Hc. }
      rewrite Hslash. by destruct openbird_dir. }
    rewrite (generate_config_missing_override fd _ name w Hd);
      rewrite Hjoin; done.
Qed.

(** X17. Without its configuration the script does nothing: once [docopt]
    has returned the parsed arguments, whatever they are ([sampling]
    included), a missing default file ends the script in
    [FileNotFoundError] with nothing printed and no stage run. *)
Theorem main_needs_config (args : arguments) (w : world) :
  files w !! path_join openbird_dir "config/openbird.ini" = None ->
  main args w =
  (Raise (FileNotFoundError (path_join openbird_dir "config/openbird.ini")), w).
Proof.
  intros Hd. unfold main, bind.
  by rewrite (generate_config_missing_default _ _ _ _ Hd).
Qed.

(** X18. Once the configuration is loaded, [sampling] prints one line and
    runs no stage, whatever the other flags are; otherwise the first set
    flag in the order [spect_gen], [view], [model_fit], [predict] selects
    the one stage that runs, [view] receiving the empty string for a
    missing image; with no flag set nothing happens. *)
Theorem main_runs_one_stage (args : arguments) (w : world) (defaults : section) :
  fst (generate_config "config/openbird.ini" (arg_ini args) "default" w)
  = Ok defaults ->
  main args w =
  if arg_sampling args then
    (Ok tt, {| heap := heap w; files := files w;
               stdout := stdout w ++ ["sampling"] |})
  else if arg_spect_gen args then spect_gen defaults w
  else if arg_view args then
    view (arg_label args) (default EmptyString (arg_image args))
      (arg_segments args) defaults w
  else if arg_model_fit args then model_fit defaults w
  else if arg_predict args then predict defaults w
  else (Ok tt, w).
Proof.
  intros Hcfg. unfold main, bind.
  pose proof (generate_config_world "config/openbird.ini" (arg_ini args)
                "default" w) as Hw.
  destruct (generate_config _ _ _ w) as [r w1]. cbn in Hcfg, Hw. subst.
  destruct (arg_sampling args); [reflexivity|].
  destruct (arg_spect_gen args); [reflexivity|].
  destruct (arg_view args); [|by repeat case_match].
  by destruct (arg_image args) as [[|c s]|].
Qed.

End OpenbirdProperties.

(** * Examples *)

Section Examples.
Import Demo DemoBird.
#[local] Existing Instance demo_libs.



Lemma bandpass_order_ignored_witness :
  heap w0 !! 2%positive = Some (mkAudio [1%Q; 3%Q] 8)
  /\ (0 < 1)%Q /\ (3 < inject_Z 8 / 2)%Q
  /\ bandpass 2 1 3 5 w0 = alloc (mkAudio [1%Q; 3%Q] 8) w0.
Proof.
  assert (H : heap w0 !! 2%positive = Some (mkAudio [1%Q; 3%Q] 8))
    by (vm_compute; reflexivity).
  split; [exact H|]. split; [reflexivity|]. split; [reflexivity|].
  exact (proj2 (bandpass_order_ignored w0 2 (mkAudio [1%Q; 3%Q] 8) 1 3 5)
           H eq_refl eq_refl).
Defined.

Lemma trim_length_witness :
  heap w_ten_hz !! 1%positive = Some (mkAudio ten 10)
  /\ sample_index (PyFloat f0_7) 10 = Ok 7
  /\ sample_index (PyInt 1) 10 = Ok 10
  /\ (exists l au',
        trim 1 (PyFloat f0_7) (PyInt 1) w_ten_hz =
        (Ok l, set_heap (<[l := au']> (heap w_ten_hz)) w_ten_hz)
        /\ Z.of_nat (length (samples au')) = 3)
  /\ sample_index (PyFloat f1e308) 10
     = Raise (OverflowError "cannot convert float infinity to integer")
  /\ trim 1 (PyFloat f1e308) (PyInt 1) w_ten_hz =
     (Raise (OverflowError "cannot convert float infinity to integer"),
      w_ten_hz).
Proof.
  assert (H : heap w_ten_hz !! 1%positive = Some (mkAudio ten 10))
    by (vm_compute; reflexivity).
  assert (H1 : sample_index (PyFloat f0_7) 10 = Ok 7)
    by (vm_compute; reflexivity).
  assert (H2 : sample_index (PyInt 1) 10 = Ok 10) by reflexivity.
  assert (H3 : sample_index (PyFloat f1e308) 10
               = Raise (OverflowError "cannot convert float infinity to integer"))
    by (vm_compute; reflexivity).
  split; [exact H|]. split; [exact H1|]. split; [exact H2|]. split.
  - pose proof (trim_length w_ten_hz 1 _ (PyFloat f0_7) (PyInt 1) H) as Ht.
    cbv zeta in Ht. cbn [sample_rate samples] in Ht. rewrite H1, H2 in Ht.
    destruct Ht as (l & au' & Ht & _ & _ & Hlen & _).
    exists l, au'. split; [exact Ht|]. rewrite Hlen. vm_compute; reflexivity.
  - split; [exact H3|].
    pose proof (trim_length w_ten_hz 1 _ (PyFloat f1e308) (PyInt 1) H) as Ht.
    cbv zeta in Ht. cbn [sample_rate samples] in Ht. rewrite H3 in Ht.
    exact (proj1 Ht).
Defined.

(** On ten samples at 1 Hz, [trim(5, 15)] keeps the five samples
    [samples[5:15]] and [trim(-3, 8)] the one sample [samples[-3:8]]; the
    clamped difference of the two indices is ten in both cases. *)
Lemma trim_length_counterexample :
  sample_index (PyInt 5) 1 = Ok 5 /\ sample_index (PyInt 15) 1 = Ok 15
  /\ result_length (trim 1 (PyInt 5) (PyInt 15) w0) = Some 5%nat
  /\ claimed_trim_length (Z.of_nat (length ten)) 5 15 = 10
  /\ result_length (trim 1 (PyInt 5) (PyInt 15) w0) <>
     Some (Z.to_nat (claimed_trim_length (Z.of_nat (length ten)) 5 15))
  /\ sample_index (PyInt (-3)) 1 = Ok (-3) /\ sample_index (PyInt 8) 1 = Ok 8
  /\ result_length (trim 1 (PyInt (-3)) (PyInt 8) w0) = Some 1%nat
  /\ claimed_trim_length (Z.of_nat (length ten)) (-3) 8 = 10.
Proof.
  split; [reflexivity|]. split; [reflexivity|].
  split; [vm_compute; reflexivity|]. split; [vm_compute; reflexivity|].
  split; [vm_compute; discriminate|].
  split; [reflexivity|]. split; [reflexivity|].
  split; vm_compute; reflexivity.
Defined.

Lemma spectrum_characterised_witness :
  heap w0 !! 2%positive = Some (mkAudio [1%Q; 3%Q] 8)
  /\ fft [1%Q; 3%Q] = LOk [(1 + 3)%Q; (1 - 3)%Q]
  /\ exists magnitudes frequencies,
       fst (spectrum 2 w0) = Ok (magnitudes, frequencies)
       /\ length magnitudes = 1%nat /\ length frequencies = 1%nat.
Proof.
  split; [vm_compute; reflexivity|]. split; [reflexivity|].
  destruct (spectrum_characterised w0 2 (mkAudio [1%Q; 3%Q] 8))
    as (_ & _ & Hspec & _); [vm_compute; reflexivity|].
  destruct (Hspec ltac:(discriminate) ltac:(discriminate)
              [(1 + 3)%Q; (1 - 3)%Q]
              [(inject_Z 0 / (inject_Z 2 * (1 / inject_Z 8)))%Q;
               (inject_Z (-1) / (inject_Z 2 * (1 / inject_Z 8)))%Q]
              eq_refl eq_refl eq_refl eq_refl)
    as (m & f & Hm & Hlm & Hlf & _).
  exists m, f. split; [exact Hm|]. split; assumption.
Defined.

(** A recording built from an empty array with [sample_rate=0]. *)
Lemma constructed_sample_rate_counterexample :
  fst (Audio_new (Ndarray []) 0 None "kaiser_fast" empty_world) = Ok 1%positive
  /\ heap (snd (Audio_new (Ndarray []) 0 None "kaiser_fast" empty_world))
       !! 1%positive = Some (mkAudio [] 0)
  /\ ~ 0 < sample_rate (mkAudio [] 0).
Proof.
  split; [vm_compute; reflexivity|]. split; [vm_compute; reflexivity|].
  cbn. lia.
Defined.

Lemma constructed_sample_rate_witness :
  Audio_new (Str "clip.wav") 22050 None "kaiser_fast" w0 =
  (Ok 4%positive,
   set_heap (<[4%positive := mkAudio (byte_samples "abc") 22050]> (heap w0)) w0)
  /\ exists au,
       heap (set_heap (<[4%positive := mkAudio (byte_samples "abc") 22050]>
                         (heap w0)) w0) !! 4%positive = Some au
       /\ sample_rate au = 22050.
Proof.
  assert (H : Audio_new (Str "clip.wav") 22050 None "kaiser_fast" w0 =
              (Ok 4%positive,
               set_heap (<[4%positive := mkAudio (byte_samples "abc") 22050]>
                           (heap w0)) w0))
    by (vm_compute; reflexivity).
  split; [exact H|].
  destruct (constructed_sample_rate _ _ _ _ _ _ _ H) as (au & Hau & Hr & _).
  by exists au.
Defined.


Lemma save_extension_guard_witness :
  heap w0 !! 2%positive = Some (mkAudio [1%Q; 3%Q] 8)
  /\ endswith "song.mp3" ".wav" = false
  /\ save 2 "song.mp3" w0 =
     (Raise (ValueError "file extension must be .wav"), w0)
  /\ save 2 "wav" w0 = (Ok tt, set_files (<["wav" := "RIFF"]> (files w0)) w0).
Proof.
  assert (H : heap w0 !! 2%positive = Some (mkAudio [1%Q; 3%Q] 8))
    by (vm_compute; reflexivity).
  destruct (save_extension_guard w0 2 _ H) as (Hrej & _ & Hwav).
  split; [exact H|]. split; [reflexivity|]. split.
  - apply Hrej; [reflexivity|discriminate].
  - exact Hwav.
Defined.

Lemma save_checks_last_token_witness :
  heap w0 !! 2%positive = Some (mkAudio [1%Q; 3%Q] 8)
  /\ last_item (split "." "take.1.wav") = "wav"
  /\ save 2 "take.1.wav" w0 =
     (Ok tt, set_files (<["take.1.wav" := "RIFF"]> (files w0)) w0).
Proof.
  assert (H : heap w0 !! 2%positive = Some (mkAudio [1%Q; 3%Q] 8))
    by (vm_compute; reflexivity).
  split; [exact H|]. split; [reflexivity|].
  destruct (save_checks_last_token w0 2 _ "take.1.wav" H)
    as (_ & _ & Hwritten & _).
  exact (Hwritten eq_refl).
Defined.

End Examples.

Section MoreExamples.
Import Demo DemoBird.
#[local] Existing Instance demo_libs.
#[local] Existing Instance demo_bird.


Lemma stream_construction_witness :
  soundfile_read "ab" = LOk (Arr1 (byte_samples "ab"), 1)
  /\ resample (Arr1 (byte_samples "ab")) 1 8 "kaiser_fast"
     = LOk (Arr1 (byte_samples "ab"))
  /\ Audio_new (Stream "ab") 8 (Some 0%Q) "kaiser_fast" w0 =
     alloc (mkAudio (byte_samples "ab") 8)
       {| heap := heap w0; files := files w0;
          stdout := stdout w0 ++ ["BytesIO object"] |}.
Proof.
  split; [reflexivity|]. split; [reflexivity|].
  exact (stream_construction "ab" 8 (Some 0%Q) "kaiser_fast" w0
           (Arr1 (byte_samples "ab")) (Arr1 (byte_samples "ab")) 1
           eq_refl eq_refl).
Defined.

Lemma path_construction_loads_witness :
  is_Some (files w0 !! "clip.wav")
  /\ get_duration (files w0) "clip.wav" = LOk (inject_Z 3)
  /\ (inject_Z 3 <= 3)%Q
  /\ exists l,
       Audio_new (Str "clip.wav") 22050 (Some 3%Q) "kaiser_fast" w0 =
       (Ok l, set_heap (<[l := mkAudio (byte_samples "abc") 22050]> (heap w0))
                w0)
       /\ heap w0 !! l = None.
Proof.
  assert (H1 : is_Some (files w0 !! "clip.wav"))
    by (exists "abc"; vm_compute; reflexivity).
  assert (H2 : get_duration (files w0) "clip.wav" = LOk (inject_Z 3))
    by (vm_compute; reflexivity).
  assert (H3 : (inject_Z 3 <= 3)%Q) by (vm_compute; discriminate).
  split; [exact H1|]. split; [exact H2|]. split; [exact H3|].
  apply (path_construction_loads (Str "clip.wav") "clip.wav" 22050 (Some 3%Q)
           "kaiser_fast" w0 (byte_samples "abc")).
  - by left.
  - exact H1.
  - right. exists 3%Q, (inject_Z 3). by repeat split.
  - vm_compute; reflexivity.
Defined.


Lemma trim_to_the_end_witness :
  heap w0 !! 2%positive = Some (mkAudio [1%Q; 3%Q] 8)
  /\ sample_index (PyFloat f0_7) 8 = Ok 5
  /\ Z.of_nat (length [1%Q; 3%Q]) <= 5
  /\ exists l,
       trim 2 (PyInt 0) (PyFloat f0_7) w0 =
       (Ok l, set_heap (<[l := mkAudio [1%Q; 3%Q] 8]> (heap w0)) w0)
       /\ l <> 2%positive.
Proof.
  assert (H : heap w0 !! 2%positive = Some (mkAudio [1%Q; 3%Q] 8))
    by (vm_compute; reflexivity).
  assert (H1 : sample_index (PyFloat f0_7) 8 = Ok 5)
    by (vm_compute; reflexivity).
  assert (H2 : Z.of_nat (length [1%Q; 3%Q]) <= 5) by (vm_compute; discriminate).
  split; [exact H|]. split; [exact H1|]. split; [exact H2|].
  exact (trim_to_the_end w0 2 _ (PyFloat f0_7) 5 H H1 H2).
Defined.

Lemma trim_trim_witness :
  heap w_ten_hz !! 1%positive = Some (mkAudio ten 10)
  /\ sample_index (PyFloat f0_7) 10 = Ok 7
  /\ exists l1 w1 l2 au2,
       trim 1 (PyInt 0) (PyFloat f0_7) w_ten_hz = (Ok l1, w1)
       /\ trim l1 (PyInt 0) (PyInt 1) w1 =
          (Ok l2, set_heap (<[l2 := au2]> (heap w1)) w1)
       /\ sample_rate au2 = 10
       /\ samples au2 = slice ten 0 7.
Proof.
  assert (H : heap w_ten_hz !! 1%positive = Some (mkAudio ten 10))
    by (vm_compute; reflexivity).
  assert (H1 : sample_index (PyFloat f0_7) 10 = Ok 7)
    by (vm_compute; reflexivity).
  split; [exact H|]. split; [exact H1|].
  destruct (trim_trim w_ten_hz 1 _ (PyInt 0) (PyFloat f0_7) (PyInt 0) (PyInt 1)
              0 7 0 10 H eq_refl H1 eq_refl eq_refl)
    as (l1 & w1 & l2 & au2 & Ha & Hb & Hr & Hs);
    try (vm_compute; discriminate).
  by exists l1, w1, l2, au2.
Defined.

Lemma trim_reversed_is_empty_witness :
  heap w_ten_hz !! 1%positive = Some (mkAudio ten 10)
  /\ sample_index (PyInt 1) 10 = Ok 10
  /\ sample_index (PyFloat f0_7) 10 = Ok 7
  /\ 0 <= 7 <= 10
  /\ (exists l w',
        trim 1 (PyInt 1) (PyFloat f0_7) w_ten_hz = (Ok l, w')
        /\ heap w' !! l = Some (mkAudio [] 10)
        /\ exists e, spectrum l w' = (Raise e, w'))
  /\ (exists l w',
        trim 1 (PyInt 6) (PyInt 2) w_ten_hz = (Ok l, w')
        /\ heap w' !! l = Some (mkAudio [] 10)
        /\ exists e, spectrum l w' = (Raise e, w')).
Proof.
  assert (H : heap w_ten_hz !! 1%positive = Some (mkAudio ten 10))
    by (vm_compute; reflexivity).
  assert (H1 : sample_index (PyFloat f0_7) 10 = Ok 7)
    by (vm_compute; reflexivity).
  assert (H2 : 0 <= 7 <= 10) by lia.
  destruct (trim_reversed_is_empty w_ten_hz 1 _ H) as [Hgen Hint].
  split; [exact H|]. split; [reflexivity|]. split; [exact H1|].
  split; [exact H2|]. split.
  - exact (Hgen (PyInt 1) (PyFloat f0_7) 10 7 eq_refl H1 H2).
  - apply (Hint 6 2); cbn; lia.
Defined.

Lemma spectrum_single_sample_witness :
  heap w_single !! 1%positive = Some (mkAudio [7%Q] 4)
  /\ fft [7%Q] = LOk [7%Q]
  /\ spectrum 1 w_single = (Ok ([], []), w_single).
Proof.
  assert (H : heap w_single !! 1%positive = Some (mkAudio [7%Q] 4))
    by (vm_compute; reflexivity).
  split; [exact H|]. split; [reflexivity|].
  apply (spectrum_single_sample w_single 1 _ 7
           ([7%Q] : list (@complex demo_libs))
           [(inject_Z 0 / (inject_Z (Z.of_nat 1) * (1 / inject_Z 4)))%Q] H);
    [reflexivity|discriminate|reflexivity|reflexivity].
Defined.

Lemma save_keeps_objects_witness :
  last_item (split "." "a.mp3") <> "wav"
  /\ heap (snd (save 2 "a.mp3" w0)) = heap w0
  /\ files (snd (save 2 "a.mp3" w0)) = files w0.
Proof.
  assert (H : last_item (split "." "a.mp3") <> "wav") by discriminate.
  destruct (save_keeps_objects w0 2 "a.mp3") as (Hh & _ & Hf & _).
  split; [exact H|]. split; [exact Hh|]. exact (Hf H).
Defined.

Lemma save_accepts_dot_wav_witness :
  heap w0 !! 2%positive = Some (mkAudio [1%Q; 3%Q] 8)
  /\ save 2 ("dir.v2/take" +:+ ".wav") w0 =
     (Ok tt, set_files (<["dir.v2/take.wav" := "RIFF"]> (files w0)) w0).
Proof.
  assert (H : heap w0 !! 2%positive = Some (mkAudio [1%Q; 3%Q] 8))
    by (vm_compute; reflexivity).
  split; [exact H|].
  exact (save_accepts_dot_wav w0 2 _ "dir.v2/take" H).
Defined.

Lemma repr_determines_witness :
  heap w0 !! 2%positive = Some (mkAudio [1%Q; 3%Q] 8)
  /\ heap w_pair !! 5%positive = Some (mkAudio [5%Q; 9%Q] 8)
  /\ fst (__repr__ 2 w0) = Ok "<Audio(samples=(2,), sample_rate=8)>"
  /\ fst (__repr__ 2 w0) = fst (__repr__ 5 w_pair)
  /\ length [1%Q; 3%Q] = length [5%Q; 9%Q].
Proof.
  assert (H : heap w0 !! 2%positive = Some (mkAudio [1%Q; 3%Q] 8))
    by (vm_compute; reflexivity).
  assert (H' : heap w_pair !! 5%positive = Some (mkAudio [5%Q; 9%Q] 8))
    by (vm_compute; reflexivity).
  assert (Heq : fst (__repr__ 2 w0) = fst (__repr__ 5 w_pair))
    by (vm_compute; reflexivity).
  split; [exact H|]. split; [exact H'|].
  split; [vm_compute; reflexivity|]. split; [exact Heq|].
  destruct (repr_determines w0 w_pair 2 5 _ _ H H') as [_ Hdet].
  exact (proj1 (Hdet Heq)).
Defined.

Lemma generate_config_missing_file_witness :
  files empty_world !! path_join openbird_dir "config/openbird.ini" = None
  /\ generate_config "config/openbird.ini" "openbird.ini" "default"
       empty_world =
     (Raise (FileNotFoundError "/opt/openbird/config/openbird.ini"),
      empty_world)
  /\ is_Some (files bird_world !! path_join openbird_dir "config/openbird.ini")
  /\ files bird_world !! path_join openbird_dir "nope.ini" = None
  /\ generate_config "config/openbird.ini" "nope.ini" "default" bird_world =
     (Raise (FileNotFoundError "/opt/openbird/nope.ini"), bird_world).
Proof.
  assert (H0 : files empty_world
                 !! path_join openbird_dir "config/openbird.ini" = None)
    by (vm_compute; reflexivity).
  assert (H1 : is_Some (files bird_world
                          !! path_join openbird_dir "config/openbird.ini"))
    by (exists "[default]"; vm_compute; reflexivity).
  assert (H2 : files bird_world !! path_join openbird_dir "nope.ini" = None)
    by (vm_compute; reflexivity).
  split; [exact H0|]. split.
  - exact (proj1 (generate_config_missing_file "config/openbird.ini"
                    "openbird.ini" "default" empty_world) H0).
  - split; [exact H1|]. split; [exact H2|].
    exact (proj2 (generate_config_missing_file "config/openbird.ini" "nope.ini"
                    "default" bird_world) H1 H2).
Defined.

Lemma generate_config_reads_in_order_witness :
  is_Some (files bird_world !! path_join openbird_dir "config/openbird.ini")
  /\ is_Some (files bird_world !! path_join openbird_dir "openbird.ini")
  /\ fst (generate_config "config/openbird.ini" "openbird.ini" "default"
            bird_world) =
     Ok ("default", ["/opt/openbird/config/openbird.ini";
                     "/opt/openbird/openbird.ini"]).
Proof.
  assert (H1 : is_Some (files bird_world
                          !! path_join openbird_dir "config/openbird.ini"))
    by (exists "[default]"; vm_compute; reflexivity).
  assert (H2 : is_Some (files bird_world
                          !! path_join openbird_dir "openbird.ini"))
    by (exists "[default]"; vm_compute; reflexivity).
  split; [exact H1|]. split; [exact H2|].
  rewrite (proj2 (generate_config_reads_in_order "config/openbird.ini"
                    "openbird.ini" "default" bird_world) H1 H2).
  vm_compute; reflexivity.
Defined.

Lemma override_resolution_witness :
  is_Some (files bird_world !! path_join openbird_dir "config/openbird.ini")
  /\ files bird_world !! "/etc/missing.ini" = None
  /\ generate_config "config/openbird.ini" "/etc/missing.ini" "default"
       bird_world =
     (Raise (FileNotFoundError "/etc/missing.ini"), bird_world)
  /\ endswith openbird_dir "/" = false
  /\ files bird_world !! (openbird_dir +:+ "/" +:+ "nope.ini") = None
  /\ generate_config "config/openbird.ini" "nope.ini" "default" bird_world =
     (Raise (FileNotFoundError (openbird_dir +:+ "/" +:+ "nope.ini")),
      bird_world).
Proof.
  assert (H1 : is_Some (files bird_world
                          !! path_join openbird_dir "config/openbird.ini"))
    by (exists "[default]"; vm_compute; reflexivity).
  assert (H2 : files bird_world !! "/etc/missing.ini" = None)
    by (vm_compute; reflexivity).
  assert (H3 : files bird_world !! (openbird_dir +:+ "/" +:+ "nope.ini") = None)
    by (vm_compute; reflexivity).
  destruct (override_resolution "config/openbird.ini" "/etc/missing.ini"
              "default" bird_world H1) as [Habs _].
  destruct (override_resolution "config/openbird.ini" "nope.ini"
              "default" bird_world H1) as [_ Hrel].
  split; [exact H1|]. split; [exact H2|].
  split; [exact (Habs "etc/missing.ini" eq_refl H2)|].
  split; [reflexivity|]. split; [exact H3|].
  apply (Hrel "n"%char "ope.ini" eq_refl); [discriminate|discriminate| |exact H3].
  reflexivity.
Defined.

Lemma main_needs_config_witness :
  files empty_world !! path_join openbird_dir "config/openbird.ini" = None
  /\ main view_args empty_world =
     (Raise (FileNotFoundError "/opt/openbird/config/openbird.ini"),
      empty_world).
Proof.
  assert (H : files empty_world
                !! path_join openbird_dir "config/openbird.ini" = None)
    by (vm_compute; reflexivity).
  split; [exact H|]. exact (main_needs_config view_args empty_world H).
Defined.

Lemma main_runs_one_stage_witness :
  fst (generate_config "config/openbird.ini" (arg_ini view_args) "default"
         bird_world) =
  Ok ("default", ["/opt/openbird/config/openbird.ini";
                  "/opt/openbird/openbird.ini"])
  /\ main view_args bird_world =
     (Ok tt, {| heap := heap bird_world; files := files bird_world;
                stdout := ["view "] |}).
Proof.
  assert (H : fst (generate_config "config/openbird.ini" (arg_ini view_args)
                     "default" bird_world) =
              Ok ("default", ["/opt/openbird/config/openbird.ini";
                              "/opt/openbird/openbird.ini"]))
    by (vm_compute; reflexivity).
  split; [exact H|].
  exact (main_runs_one_stage view_args bird_world _ H).
Defined.

End MoreExamples.
